(** * The URL-resolution engine of the URL shortener

    A shallow embedding of the URL service (the [urlServer] handlers
    [ShortenURL], [GetOriginalURL], [GetURLStats] and their helpers) and of the
    read handlers of the storage service, followed by the properties of the
    specification that concern them.

    Conventions of the embedding:
    - the three Go maps of [urlServer] are finite maps keyed by strings;
    - an [int64] is a [Z] with its wrap-around written out ([wrap64]);
    - a [time.Time] is the number of nanoseconds since the Unix epoch;
    - a handler is a computation in a small monad [M] that threads the server
      state, records every synchronous outbound call in order, records every
      goroutine it starts, and may panic;
    - the answers of the two remote collaborators are given by an environment
      of oracles ([clients]);
    - [run] executes the body of a handler from its first statement to its
      return with no other call in between; [ShortenURL] mutates local state
      in one critical section, but [GetOriginalURL] takes and releases the
      lock several times, so its body is also given as a machine
      ([lookup_step]) that moves from one critical section or outbound call
      to the next, and concurrent calls are interleavings of such steps. *)

From Stdlib Require Import ZArith Lia Ascii String.
From stdpp Require Import base option strings list gmap fin_maps.

Local Open Scope string_scope.
Local Open Scope Z_scope.

(** ** Machine integers and time *)

Definition wrap64 (z : Z) : Z := (z + 2 ^ 63) mod 2 ^ 64 - 2 ^ 63.

Definition max_int64 : Z := 2 ^ 63 - 1.

Definition min_int64 : Z := - 2 ^ 63.

Abbreviation Time := Z (only parsing).

(** The zero value of [time.Time]: January 1, year 1, 00:00:00 UTC. *)
Definition zeroTime : Time := -62135596800 * 1000000000.

(** [t.UnixNano()]: the result is an [int64]. *)
Definition UnixNano (t : Time) : Z := wrap64 t.

(** ** Protocol messages *)

(** The pair [(resp, err)] returned by a gRPC client stub. *)
Inductive rpc (A : Type) : Type :=
| RpcErr (err : string)
| RpcOk (resp : A).
Arguments RpcErr {A} err.
Arguments RpcOk {A} resp.

Module cache_service.
Module GetResponse.
Record t := { Value : string; Found : bool }.
End GetResponse.
Module SetRequest.
Record t := { Key : string; Value : string; TtlSeconds : Z }.
End SetRequest.
End cache_service.

Module storage_service.
Module SaveURLRequest.
Record t := { ShortCode : string; OriginalUrl : string }.
End SaveURLRequest.
Module GetURLResponse.
Record t := { OriginalUrl : string; Found : bool; Error : string }.
End GetURLResponse.
Module GetStatsResponse.
Record t :=
  { ShortCode : string; ClickCount : Z; CreatedAt : string; Error : string }.
End GetStatsResponse.
Module SaveURLResponse.
Record t := { Success : bool; Error : string }.
End SaveURLResponse.
Module IncrementClickResponse.
Record t := { Success : bool; Error : string }.
End IncrementClickResponse.
End storage_service.

Module url_service.
Module ShortenRequest.
Record t := { OriginalUrl : string; CustomAlias : string }.
End ShortenRequest.
Module ShortenResponse.
Record t := { ShortCode : string; OriginalUrl : string; Error : string }.
End ShortenResponse.
Module GetOriginalResponse.
Record t := { OriginalUrl : string; Found : bool }.
End GetOriginalResponse.
Module StatsResponse.
Record t :=
  { ShortCode : string; ClickCount : Z; CreatedAt : string; Error : string }.
End StatsResponse.
End url_service.

(** ** Server state, environment and effects *)

Record urlServer := mkServer
  { urls : gmap string string;
    stats : gmap string Z;
    createdAt : gmap string Z }.

Definition NewURLServer : urlServer :=
  {| urls := ∅; stats := ∅; createdAt := ∅ |}.

(** What the remote collaborators answer at the moment of a call. *)
Record clients := mkClients
  { cacheGet : string -> rpc cache_service.GetResponse.t;
    storageGetURL : string -> rpc storage_service.GetURLResponse.t;
    storageGetStats : string -> rpc storage_service.GetStatsResponse.t }.

(** Synchronous outbound calls, in the order they are issued. *)
Inductive call :=
| CacheGet (key : string)
| StorageGetURL (shortCode : string)
| StorageGetStats (shortCode : string).

(** Goroutines started by a handler: each one issues a single outbound
    request under its own three-second deadline and only logs the outcome. *)
Inductive task :=
| GoSaveURL (req : storage_service.SaveURLRequest.t)
| GoCacheSet (req : cache_service.SetRequest.t)
| GoIncrementClick (shortCode : string).

Record world := mkWorld
  { srv : urlServer;
    calls : list call;
    spawned : list task }.

Definition boot (s : urlServer) : world :=
  {| srv := s; calls := []; spawned := [] |}.

(** ** The handler monad *)

Definition M (A : Type) : Type := world -> option (A * world).

Definition ret {A} (a : A) : M A := fun w => Some (a, w).

Definition bind {A B} (m : M A) (k : A -> M B) : M B :=
  fun w => match m w with
           | Some (a, w') => k a w'
           | None => None
           end.

Definition panic {A} : M A := fun _ => None.

Notation "'let*' x := m 'in' k" := (bind m (fun x => k))
  (at level 10, x name, m at level 100, k at level 200).
Notation "m >>> k" := (bind m (fun _ => k))
  (at level 100, k at level 200, right associativity).

(** Read the guarded state. *)
Definition read {A} (f : urlServer -> A) : M A :=
  fun w => Some (f (srv w), w).

(** Mutate the guarded state. *)
Definition update (f : urlServer -> urlServer) : M unit :=
  fun w => Some (tt, {| srv := f (srv w); calls := calls w; spawned := spawned w |}).

(** Issue a synchronous outbound call whose answer is [r]. *)
Definition invoke {A} (c : call) (r : rpc A) : M (rpc A) :=
  fun w => Some (r, {| srv := srv w; calls := calls w ++ [c]; spawned := spawned w |}).

(** The [go] statement. *)
Definition go (t : task) : M unit :=
  fun w => Some (tt, {| srv := srv w; calls := calls w; spawned := spawned w ++ [t] |}).

Definition of_option {A} (o : option A) : M A :=
  match o with Some a => ret a | None => panic end.

Definition run {A} (m : M A) (s : urlServer) : option (A * world) := m (boot s).

(** ** Code generator *)

Definition charset : string :=
  "abcdefghijklmnopqrstuvwxyzABCDEFGHIJKLMNOPQRSTUVWXYZ0123456789".

(** [charset[i]] for an [int64] index: out of range is a run-time panic. *)
Definition charset_at (i : Z) : option ascii :=
  if (i <? 0) || (Z.of_nat (String.length charset) <=? i) then None
  else String.get (Z.to_nat i) charset.

(** [clk i] is the value of the [i]-th [time.Now()] of the call.  The loop
    over the six bytes reads the clock once per position; Go's [%] is the
    truncated remainder [Z.rem]. *)
Definition generateShortCode (clk : nat -> Z) : option string :=
  string_of_list_ascii <$>
    mapM (fun i => charset_at (Z.rem (UnixNano (clk i))
                                     (Z.of_nat (String.length charset))))
         (seq 0 6).

(** ** URL service handlers *)

Import url_service.

Definition incrementStats (shortCode : string) : M unit :=
  update (fun s =>
    {| urls := urls s;
       stats := <[shortCode := wrap64 (default 0 (stats s !! shortCode) + 1)]> (stats s);
       createdAt := createdAt s |}) >>>
  go (GoIncrementClick shortCode).

Definition warmCache (shortCode originalURL : string) : task :=
  GoCacheSet {| cache_service.SetRequest.Key := shortCode;
                cache_service.SetRequest.Value := originalURL;
                cache_service.SetRequest.TtlSeconds := 3600 |}.

Definition conflict : ShortenResponse.t :=
  {| ShortenResponse.ShortCode := "";
     ShortenResponse.OriginalUrl := "";
     ShortenResponse.Error := "Custom alias already exists" |}.

(** [clk 0 .. clk 5] are read by the generator, [clk 6] by the insertion. *)
Definition ShortenURL (clk : nat -> Z) (req : ShortenRequest.t)
  : M ShortenResponse.t :=
  let* generated := of_option (generateShortCode clk) in
  let shortCode :=
    if decide (ShortenRequest.CustomAlias req = "") then generated
    else ShortenRequest.CustomAlias req in
  let* found := read (fun s => urls s !! shortCode) in
  match found with
  | Some _ => ret conflict
  | None =>
      update (fun s =>
        {| urls := <[shortCode := ShortenRequest.OriginalUrl req]> (urls s);
           stats := <[shortCode := 0]> (stats s);
           createdAt := <[shortCode := clk 6%nat]> (createdAt s) |}) >>>
      go (GoSaveURL
            {| storage_service.SaveURLRequest.ShortCode := shortCode;
               storage_service.SaveURLRequest.OriginalUrl :=
                 ShortenRequest.OriginalUrl req |}) >>>
      go (GoCacheSet
            {| cache_service.SetRequest.Key := shortCode;
               cache_service.SetRequest.Value := ShortenRequest.OriginalUrl req;
               cache_service.SetRequest.TtlSeconds := 360 |}) >>>
      ret {| ShortenResponse.ShortCode := shortCode;
             ShortenResponse.OriginalUrl := ShortenRequest.OriginalUrl req;
             ShortenResponse.Error := "" |}
  end.

Definition found_url (u : string) : GetOriginalResponse.t :=
  {| GetOriginalResponse.OriginalUrl := u; GetOriginalResponse.Found := true |}.

Definition not_found_url : GetOriginalResponse.t :=
  {| GetOriginalResponse.OriginalUrl := ""; GetOriginalResponse.Found := false |}.

(** [err == nil && cacheResp.Found] *)
Definition cache_hit (r : rpc cache_service.GetResponse.t) : option string :=
  match r with
  | RpcOk resp =>
      if cache_service.GetResponse.Found resp
      then Some (cache_service.GetResponse.Value resp) else None
  | RpcErr _ => None
  end.

(** [err == nil && storageResp.Found] *)
Definition storage_hit (r : rpc storage_service.GetURLResponse.t) : option string :=
  match r with
  | RpcOk resp =>
      if storage_service.GetURLResponse.Found resp
      then Some (storage_service.GetURLResponse.OriginalUrl resp) else None
  | RpcErr _ => None
  end.

(** [now] is the value of the [time.Now()] of the durable branch. *)
Definition GetOriginalURL (env : clients) (now : Z) (shortCode : string)
  : M GetOriginalResponse.t :=
  let* cacheResp := invoke (CacheGet shortCode) (cacheGet env shortCode) in
  match cache_hit cacheResp with
  | Some value =>
      incrementStats shortCode >>>
      ret (found_url value)
  | None =>
      let* local := read (fun s => urls s !! shortCode) in
      match local with
      | Some originalURL =>
          go (warmCache shortCode originalURL) >>>
          incrementStats shortCode >>>
          ret (found_url originalURL)
      | None =>
          let* storageResp := invoke (StorageGetURL shortCode) (storageGetURL env shortCode) in
          match storage_hit storageResp with
          | Some originalURL =>
              update (fun s =>
                {| urls := <[shortCode := originalURL]> (urls s);
                   stats := <[shortCode := 0]> (stats s);
                   createdAt := <[shortCode := now]> (createdAt s) |}) >>>
              go (warmCache shortCode originalURL) >>>
              incrementStats shortCode >>>
              ret (found_url originalURL)
          | None => ret not_found_url
          end
      end
  end.

Definition url_not_found : StatsResponse.t :=
  {| StatsResponse.ShortCode := "";
     StatsResponse.ClickCount := 0;
     StatsResponse.CreatedAt := "";
     StatsResponse.Error := "URL not found" |}.

(** [err == nil && storageResp.Error == ""] *)
Definition stats_ok (r : rpc storage_service.GetStatsResponse.t)
  : option storage_service.GetStatsResponse.t :=
  match r with
  | RpcOk resp =>
      if decide (storage_service.GetStatsResponse.Error resp = "")
      then Some resp else None
  | RpcErr _ => None
  end.

Section Stats.

(** [t.Format(time.RFC3339)], a function of Go's standard library. *)
Variable RFC3339 : Z -> string.

Definition GetURLStats (env : clients) (shortCode : string)
  : M StatsResponse.t :=
  let* local := read (fun s => (stats s !! shortCode,
                                default zeroTime (createdAt s !! shortCode))) in
  match local.1 with
  | None =>
      let* storageResp := invoke (StorageGetStats shortCode)
                                 (storageGetStats env shortCode) in
      match stats_ok storageResp with
      | Some resp =>
          ret {| StatsResponse.ShortCode := shortCode;
                 StatsResponse.ClickCount :=
                   storage_service.GetStatsResponse.ClickCount resp;
                 StatsResponse.CreatedAt :=
                   storage_service.GetStatsResponse.CreatedAt resp;
                 StatsResponse.Error := "" |}
      | None => ret url_not_found
      end
  | Some clickCount =>
      ret {| StatsResponse.ShortCode := shortCode;
             StatsResponse.ClickCount := clickCount;
             StatsResponse.CreatedAt := RFC3339 local.2;
             StatsResponse.Error := "" |}
  end.

End Stats.

(** ** Storage service: the read handlers

    The table [urls] of the relational store is a finite map from short codes
    to rows; [failure] is the error of the connection, if it has one. *)

Module storageServer.

Record row := mkRow
  { original_url : string; click_count : Z; created_at : Z }.

Record database := mkDatabase
  { table : gmap string row; failure : option string }.

(** The outcome of [QueryRowContext(...).Scan(...)]. *)
Inductive scan :=
| ErrNoRows
| ScanErr (msg : string)
| Scanned (r : row).

Definition QueryRow (db : database) (shortCode : string) : scan :=
  match failure db with
  | Some msg => ScanErr msg
  | None =>
      match table db !! shortCode with
      | Some r => Scanned r
      | None => ErrNoRows
      end
  end.

Definition GetURL (db : database) (shortCode : string)
  : storage_service.GetURLResponse.t :=
  match QueryRow db shortCode with
  | ErrNoRows =>
      {| storage_service.GetURLResponse.OriginalUrl := "";
         storage_service.GetURLResponse.Found := false;
         storage_service.GetURLResponse.Error := "" |}
  | ScanErr msg =>
      {| storage_service.GetURLResponse.OriginalUrl := "";
         storage_service.GetURLResponse.Found := false;
         storage_service.GetURLResponse.Error := msg |}
  | Scanned r =>
      {| storage_service.GetURLResponse.OriginalUrl := original_url r;
         storage_service.GetURLResponse.Found := true;
         storage_service.GetURLResponse.Error := "" |}
  end.

Section Format.

Variable RFC3339 : Z -> string.

Definition GetStats (db : database) (shortCode : string)
  : storage_service.GetStatsResponse.t :=
  match QueryRow db shortCode with
  | ErrNoRows =>
      {| storage_service.GetStatsResponse.ShortCode := "";
         storage_service.GetStatsResponse.ClickCount := 0;
         storage_service.GetStatsResponse.CreatedAt := "";
         storage_service.GetStatsResponse.Error := "URL not found" |}
  | ScanErr msg =>
      {| storage_service.GetStatsResponse.ShortCode := "";
         storage_service.GetStatsResponse.ClickCount := 0;
         storage_service.GetStatsResponse.CreatedAt := "";
         storage_service.GetStatsResponse.Error := msg |}
  | Scanned r =>
      {| storage_service.GetStatsResponse.ShortCode := shortCode;
         storage_service.GetStatsResponse.ClickCount := click_count r;
         storage_service.GetStatsResponse.CreatedAt := RFC3339 (created_at r);
         storage_service.GetStatsResponse.Error := "" |}
  end.

End Format.

(** The table with the column [updated_at], which only the write handlers
    touch, kept beside the columns that are read back. *)
Record relation := mkRelation
  { base : database; updated_at : gmap string Z }.

Section Schema.

(** The schema of the table is declared outside these sources
    (configs/postgres/init-db.sql).  [short_code] is the conflict target of
    the upsert, hence a key.  The column [click_count] is not listed by the
    INSERT, so a new row takes its declared default; it is an SQL integer,
    whose arithmetic does not wrap: an increment that would pass the largest
    value of the column fails the statement with an error. *)
Variable click_count_default : Z.
Variable click_count_max : Z.
Variable out_of_range : string.

(** The error, if any, that the database raises for the upsert of a request
    in a given state of the table on a working connection: a value the
    server does not store (a NUL byte in a text value), a violation of a
    constraint of the schema.  Neither is in these sources, so the verdict is
    an oracle. *)
Variable rejects :
  relation -> storage_service.SaveURLRequest.t -> Z -> option string.

(** INSERT ... ON CONFLICT (short_code) DO UPDATE SET original_url,
    updated_at; [now] is the [time.Now()] bound to $3.  Any error of
    [ExecContext] leaves the table as it was and is reported in the
    response. *)
Definition SaveURL (st : relation) (req : storage_service.SaveURLRequest.t)
    (now : Z) : storage_service.SaveURLResponse.t * relation :=
  match failure (base st) with
  | Some msg =>
      ({| storage_service.SaveURLResponse.Success := false;
          storage_service.SaveURLResponse.Error := msg |}, st)
  | None =>
    match rejects st req now with
    | Some msg =>
      ({| storage_service.SaveURLResponse.Success := false;
          storage_service.SaveURLResponse.Error := msg |}, st)
    | None =>
      let c := storage_service.SaveURLRequest.ShortCode req in
      let u := storage_service.SaveURLRequest.OriginalUrl req in
      let r :=
        match table (base st) !! c with
        | Some old =>
            {| original_url := u;
               click_count := click_count old;
               created_at := created_at old |}
        | None =>
            {| original_url := u;
               click_count := click_count_default;
               created_at := now |}
        end in
      ({| storage_service.SaveURLResponse.Success := true;
          storage_service.SaveURLResponse.Error := "" |},
       {| base := {| table := <[c := r]> (table (base st)); failure := None |};
          updated_at := <[c := now]> (updated_at st) |})
    end
  end.

(** UPDATE urls SET click_count = click_count + 1, updated_at = $1
    WHERE short_code = $2, then the test of [RowsAffected]. *)
Definition IncrementClick (st : relation) (shortCode : string) (now : Z)
  : storage_service.IncrementClickResponse.t * relation :=
  match failure (base st) with
  | Some msg =>
      ({| storage_service.IncrementClickResponse.Success := false;
          storage_service.IncrementClickResponse.Error := msg |}, st)
  | None =>
      match table (base st) !! shortCode with
      | None =>
          ({| storage_service.IncrementClickResponse.Success := false;
              storage_service.IncrementClickResponse.Error := "URL not found" |}, st)
      | Some r =>
          if click_count r <? click_count_max then
            ({| storage_service.IncrementClickResponse.Success := true;
                storage_service.IncrementClickResponse.Error := "" |},
             {| base :=
                  {| table :=
                       <[shortCode := {| original_url := original_url r;
                                         click_count := click_count r + 1;
                                         created_at := created_at r |}]>
                         (table (base st));
                     failure := None |};
                updated_at := <[shortCode := now]> (updated_at st) |})
          else
            ({| storage_service.IncrementClickResponse.Success := false;
                storage_service.IncrementClickResponse.Error := out_of_range |}, st)
      end
  end.

End Schema.

(** *** Configuration and start-up *)

(** [os.Getenv]: the value of the variable, empty when it is not set. *)
Definition Getenv (environ : gmap string string) (key : string) : string :=
  default "" (environ !! key).

Definition getEnv (environ : gmap string string) (key defaultValue : string)
  : string :=
  if decide (Getenv environ key = "") then defaultValue else Getenv environ key.

Record Config := mkConfig
  { Host : string; Port : string; User : string;
    Password : string; DBName : string; SSLMode : string }.

Definition getConfig (environ : gmap string string) : Config :=
  {| Host := getEnv environ "DB_HOST" "postgres";
     Port := getEnv environ "DB_PORT" "5432";
     User := getEnv environ "DB_USER" "postgres";
     Password := getEnv environ "DB_PASSWORD" "password";
     DBName := getEnv environ "DB_NAME" "urlshortener";
     SSLMode := getEnv environ "DB_SSLMODE" "disable" |}.

Definition connStr (config : Config) : string :=
  "host=" +:+ Host config +:+ " port=" +:+ Port config +:+
  " user=" +:+ User config +:+ " password=" +:+ Password config +:+
  " dbname=" +:+ DBName config +:+ " sslmode=" +:+ SSLMode config.

(** What one iteration of the start-up loop meets. *)
Inductive attempt :=
| OpenFails (err : string)
| PingFails (err : string)
| Connected.

(** The error an iteration assigns to [err]. *)
Definition failure_of (a : attempt) : option string :=
  match a with
  | OpenFails e => Some e
  | PingFails e => Some e
  | Connected => None
  end.

(** The loop [for i := 0; i < 10; i++]: [n] iterations are left, [err] is
    the variable the loop assigns, [slept] the seconds spent in
    [time.Sleep].  It returns [err], the index of the iteration that left the
    loop, and the seconds slept. *)
Fixpoint attempts (probe : nat -> attempt) (i n : nat) (err : option string)
    (slept : Z) : option string * nat * Z :=
  match n with
  | O => (err, i, slept)
  | S n' =>
      match probe i with
      | OpenFails e => attempts probe (S i) n' (Some e) (slept + 2)
      | PingFails e => attempts probe (S i) n' (Some e) (slept + 2)
      | Connected => (None, i, slept)
      end
  end.

(** [probe dsn i] is what iteration [i] meets with the connection string
    [dsn].  The result is the error, or the connection string and the
    iteration whose handle the server keeps; with it, the seconds slept. *)
Definition NewStorageServer (environ : gmap string string)
    (probe : string -> nat -> attempt) : (string + string * nat) * Z :=
  let dsn := connStr (getConfig environ) in
  match attempts (probe dsn) 0 10 None 0 with
  | (Some e, _, slept) =>
      (inl ("failed to connect to PostgreSQL after retries: " +:+ e), slept)
  | (None, i, slept) => (inr (dsn, i), slept)
  end.

End storageServer.

(** ** Derived notions used by the statements *)

(** The local click counter of a code, as [s.stats[c]] reads it. *)
Definition counter (s : urlServer) (c : string) : Z :=
  default 0 (stats s !! c).

(** The three local maps have the same keys. *)
Definition same_keys (s : urlServer) : Prop :=
  dom (urls s) = dom (stats s) /\ dom (stats s) = dom (createdAt s).

(** What every handler does maintain: URL records and creation times have the
    same keys, and each of them has a stats entry. *)
Definition record_keys (s : urlServer) : Prop :=
  dom (urls s) = dom (createdAt s) /\ dom (urls s) ⊆ dom (stats s).

(** The clock is not before the Unix epoch during the generator's loop. *)
Definition after_epoch (clk : nat -> Z) : Prop :=
  forall i : nat, (i < 6)%nat -> 0 <= UnixNano (clk i).

(** The state a successful [ShortenURL] installs. *)
Definition created (s : urlServer) (c u : string) (now : Z) : urlServer :=
  {| urls := <[c := u]> (urls s);
     stats := <[c := 0]> (stats s);
     createdAt := <[c := now]> (createdAt s) |}.

(** The state [incrementStats] installs. *)
Definition clicked (s : urlServer) (c : string) : urlServer :=
  {| urls := urls s;
     stats := <[c := wrap64 (counter s c + 1)]> (stats s);
     createdAt := createdAt s |}.

(** The code a [ShortenURL] request is stored under. *)
Definition chosen (generated : string) (req : ShortenRequest.t) : string :=
  if decide (ShortenRequest.CustomAlias req = "") then generated
  else ShortenRequest.CustomAlias req.

(** No tier has the code: the fast cache and the durable store gave no
    response that reports it found (an error of the call or a response with
    found = false), and local state has no URL for it. *)
Definition all_tiers_miss (env : clients) (c : string) (s : urlServer) : Prop :=
  (forall resp, cacheGet env c = RpcOk resp ->
                cache_service.GetResponse.Found resp = false) /\
  urls s !! c = None /\
  (forall resp, storageGetURL env c = RpcOk resp ->
                storage_service.GetURLResponse.Found resp = false).

(** The durable stats call fails: a transport error, or a response whose
    error string is not empty. *)
Definition stats_call_fails (r : rpc storage_service.GetStatsResponse.t) : Prop :=
  match r with
  | RpcErr _ => True
  | RpcOk resp => storage_service.GetStatsResponse.Error resp <> ""
  end.

(** ** Concrete scenarios *)

Definition example_request : ShortenRequest.t :=
  {| ShortenRequest.OriginalUrl := "https://example.com";
     ShortenRequest.CustomAlias := "" |}.

Definition promo_request (u : string) : ShortenRequest.t :=
  {| ShortenRequest.OriginalUrl := u; ShortenRequest.CustomAlias := "promo" |}.

(** Both collaborators are unreachable. *)
Definition unreachable : clients :=
  {| cacheGet := fun _ => RpcErr "context deadline exceeded";
     storageGetURL := fun _ => RpcErr "context deadline exceeded";
     storageGetStats := fun _ => RpcErr "context deadline exceeded" |}.

(** The fast cache answers every key with the entry [v]; the durable store
    is unreachable. *)
Definition cache_answers (v : string) : clients :=
  {| cacheGet := fun _ =>
       RpcOk {| cache_service.GetResponse.Value := v;
                cache_service.GetResponse.Found := true |};
     storageGetURL := fun _ => RpcErr "context deadline exceeded";
     storageGetStats := fun _ => RpcErr "context deadline exceeded" |}.

(** The fast cache is empty and the durable store is the storage service
    over the database [db]. *)
Definition durable_only (RFC3339 : Z -> string) (db : storageServer.database)
  : clients :=
  {| cacheGet := fun _ =>
       RpcOk {| cache_service.GetResponse.Value := "";
                cache_service.GetResponse.Found := false |};
     storageGetURL := fun c => RpcOk (storageServer.GetURL db c);
     storageGetStats := fun c => RpcOk (storageServer.GetStats RFC3339 db c) |}.

(** A clock that reads 0 during the first six readings and 1 afterwards. *)
Definition two_phase_clock (i : nat) : Z := if (i <? 6)%nat then 0 else 1.

(** A stand-in for the RFC 3339 layout, for the concrete scenarios only. *)
Definition reference_layout (t : Z) : string := "2006-01-02T15:04:05Z".

(** The durable store of the scenario: one row, for "abc123". *)
Definition one_row_database : storageServer.database :=
  {| storageServer.table :=
       {[ "abc123" := {| storageServer.original_url := "https://x.com";
                         storageServer.click_count := 41;
                         storageServer.created_at := 1700000000000000000 |} ]};
     storageServer.failure := None |}.

(** The local state after the lookups [visits] of the code [c], one after
    the other; each lookup has its own environment and clock reading. *)
Fixpoint resolve_all (c : string) (visits : list (clients * Z)) (s : urlServer)
  : urlServer :=
  match visits with
  | [] => s
  | (env, now) :: rest =>
      match run (GetOriginalURL env now c) s with
      | Some (_, w) => resolve_all c rest (srv w)
      | None => s
      end
  end.

Section Delivery.

Variable click_count_default : Z.
Variable click_count_max : Z.
Variable out_of_range : string.
Variable rejects :
  storageServer.relation -> storage_service.SaveURLRequest.t -> Z -> option string.

(** The effect on the durable store of a goroutine whose request reaches
    the storage service at time [now]; a cache write does not concern it. *)
Definition deliver (now : Z) (st : storageServer.relation) (t : task)
  : storageServer.relation :=
  match t with
  | GoSaveURL req =>
      (storageServer.SaveURL click_count_default rejects st req now).2
  | GoIncrementClick c =>
      (storageServer.IncrementClick click_count_max out_of_range st c now).2
  | GoCacheSet _ => st
  end.

(** The goroutines of one handler, reaching the storage service in the
    order they were started. *)
Definition deliver_all (now : Z) (st : storageServer.relation) (ts : list task)
  : storageServer.relation :=
  foldl (deliver now) st ts.

End Delivery.

(** A database that refuses a row whose short code is empty and accepts
    every other one, for the concrete scenarios only. *)
Definition refuses_empty_code (st : storageServer.relation)
    (req : storage_service.SaveURLRequest.t) (now : Z) : option string :=
  if decide (storage_service.SaveURLRequest.ShortCode req = "")
  then Some "new row violates check constraint" else None.

(** *** [GetOriginalURL] between its critical sections

    Where one call of [GetOriginalURL] stands.  The call holds the lock only
    inside [ReadLocal] (the read of [s.urls] under [RLock]), inside
    [Materialise] (the three assignments of the durable branch under [Lock])
    and inside [CountHit] ([incrementStats]); between two control points any
    other call may run. *)
Inductive control :=
| QueryCache
| ReadLocal
| QueryStorage
| Materialise (originalURL : string)
| CountHit (r : GetOriginalResponse.t)
| Returned (r : GetOriginalResponse.t).

(** One move of a call of [GetOriginalURL] for the code [c]: from a control
    point and the local state it finds, to the next control point and the
    local state it leaves.  The durable branch writes its three entries
    without reading [s.urls] again. *)
Definition lookup_step (env : clients) (now : Z) (c : string) (p : control)
    (s : urlServer)   : control * urlServer :=
  match p with
  | QueryCache =>
      match cache_hit (cacheGet env c) with
      | Some value => (CountHit (found_url value), s)
      | None => (ReadLocal, s)
      end
  | ReadLocal =>
      match urls s !! c with
      | Some originalURL => (CountHit (found_url originalURL), s)
      | None => (QueryStorage, s)
      end
  | QueryStorage =>
      match storage_hit (storageGetURL env c) with
      | Some originalURL => (Materialise originalURL, s)
      | None => (Returned not_found_url, s)
      end
  | Materialise originalURL =>
      (CountHit (found_url originalURL), created s c originalURL now)
  | CountHit r => (Returned r, clicked s c)
  | Returned r => (Returned r, s)
  end.

(** A call of [GetOriginalURL] in flight. *)
Record flight := mkFlight
  { flight_env : clients;
    flight_now : Z;
    flight_code : string;
    flight_at : control }.

(** The scheduler lets the call number [i] make one move. *)
Definition advance (st : list flight * urlServer) (i : nat)
  : list flight * urlServer :=
  match st.1 !! i with
  | Some f =>
      let out := lookup_step (flight_env f) (flight_now f) (flight_code f)
                             (flight_at f) st.2 in
      (<[i := {| flight_env := flight_env f;
                 flight_now := flight_now f;
                 flight_code := flight_code f;
                 flight_at := out.1 |}]> st.1, out.2)
  | None => st
  end.

Definition interleave (schedule : list nat) (st : list flight * urlServer)
  : list flight * urlServer :=
  foldl advance st schedule.

(** The atomic transitions of the engine on local state: the critical
    section of [ShortenURL] (its check and its three inserts are under one
    lock), one move of a [GetOriginalURL] call, the read of [GetURLStats],
    and [incrementStats]. *)
Inductive operation :=
| OpShortenURL (clk : nat -> Z) (req : ShortenRequest.t)
| OpLookup (env : clients) (now : Z) (shortCode : string) (p : control)
| OpGetURLStats (RFC3339 : Z -> string) (env : clients) (shortCode : string)
| OpIncrementStats (shortCode : string).

Definition perform (op : operation) (s : urlServer) : option urlServer :=
  match op with
  | OpShortenURL clk req => (fun x => srv x.2) <$> run (ShortenURL clk req) s
  | OpLookup env now c p => Some (lookup_step env now c p s).2
  | OpGetURLStats RFC3339 env c => (fun x => srv x.2) <$> run (GetURLStats RFC3339 env c) s
  | OpIncrementStats c => (fun x => srv x.2) <$> run (incrementStats c) s
  end.

(** The transition is the write of the durable branch for the code [c]. *)
Definition reloads (op : operation) (c : string) : Prop :=
  match op with
  | OpLookup _ _ c0 (Materialise _) => c0 = c
  | _ => False
  end.

(** Two calls for "abc123" that both start before the code has a local
    record. *)
Definition two_lookups : list flight * urlServer :=
  ([ {| flight_env := durable_only reference_layout one_row_database;
        flight_now := 1; flight_code := "abc123"; flight_at := QueryCache |};
     {| flight_env := durable_only reference_layout one_row_database;
        flight_now := 2; flight_code := "abc123"; flight_at := QueryCache |} ],
   NewURLServer).

(** A server whose record for "abc123" has been resolved [max_int64] times. *)
Definition saturated : urlServer :=
  {| urls := {[ "abc123" := "https://x.com" ]};
     stats := {[ "abc123" := max_int64 ]};
     createdAt := {[ "abc123" := 0 ]} |}.

(** * Properties *)

(** ** The generator *)

Example generateShortCode_zero :
  generateShortCode (fun _ => 0) = Some "aaaaaa".
Proof. reflexivity. Qed.

Example generateShortCode_ticks :
  generateShortCode (fun i => 1700000000000000000 + Z.of_nat i) = Some "ABCDEF".
Proof. vm_compute. reflexivity. Qed.


Lemma get_in_range (s : string) (n : nat) :
  (n < String.length s)%nat -> is_Some (String.get n s).
Proof.
  revert n. induction s as [|a s IH]; intros n Hn; simpl in *.
  - lia.
  - destruct n as [|n]; [eauto|]. apply IH. lia.
Qed.

Lemma charset_at_in_range (i : Z) :
  0 <= i < 62 -> is_Some (charset_at i).
Proof.
  intros Hi. unfold charset_at.
  replace (Z.of_nat (String.length charset)) with 62 by reflexivity.
  rewrite (proj2 (Z.ltb_ge i 0)) by lia.
  rewrite (proj2 (Z.leb_gt 62 i)) by lia. cbn [orb].
  apply get_in_range. change (String.length charset) with 62%nat. lia.
Qed.

Lemma generateShortCode_total (clk : nat -> Z) :
  after_epoch clk -> is_Some (generateShortCode clk).
Proof.
  intros Hclk. unfold generateShortCode.
  assert (Hpos : forall i : nat, (i < 6)%nat ->
            is_Some (charset_at (Z.rem (UnixNano (clk i))
                                       (Z.of_nat (String.length charset))))).
  { intros i Hi. apply charset_at_in_range.
    replace (Z.of_nat (String.length charset)) with 62 by reflexivity.
    specialize (Hclk i Hi).
    pose proof (Z.rem_bound_pos (UnixNano (clk i)) 62 Hclk ltac:(lia)). lia. }
  destruct (Hpos 0%nat ltac:(lia)) as [a0 E0].
  destruct (Hpos 1%nat ltac:(lia)) as [a1 E1].
  destruct (Hpos 2%nat ltac:(lia)) as [a2 E2].
  destruct (Hpos 3%nat ltac:(lia)) as [a3 E3].
  destruct (Hpos 4%nat ltac:(lia)) as [a4 E4].
  destruct (Hpos 5%nat ltac:(lia)) as [a5 E5].
  cbn [seq mapM]. rewrite E0, E1, E2, E3, E4, E5. cbn. eauto.
Qed.

(** ** One run of each handler, in closed form *)

Lemma incrementStats_run (c : string) (w : world) :
  incrementStats c w =
  Some (tt, {| srv := clicked (srv w) c;
               calls := calls w;
               spawned := spawned w ++ [GoIncrementClick c] |}).
Proof. reflexivity. Qed.

Lemma ShortenURL_run (clk : nat -> Z) (req : ShortenRequest.t) (s : urlServer) :
  run (ShortenURL clk req) s =
  match generateShortCode clk with
  | None => None
  | Some g =>
      let c := chosen g req in
      let u := ShortenRequest.OriginalUrl req in
      match urls s !! c with
      | Some _ => Some (conflict, boot s)
      | None =>
          Some ({| ShortenResponse.ShortCode := c;
                   ShortenResponse.OriginalUrl := u;
                   ShortenResponse.Error := "" |},
                {| srv := created s c u (clk 6%nat);
                   calls := [];
                   spawned :=
                     [GoSaveURL {| storage_service.SaveURLRequest.ShortCode := c;
                                   storage_service.SaveURLRequest.OriginalUrl := u |};
                      GoCacheSet {| cache_service.SetRequest.Key := c;
                                    cache_service.SetRequest.Value := u;
                                    cache_service.SetRequest.TtlSeconds := 360 |}] |})
      end
  end.
Proof.
  unfold run, ShortenURL, bind, of_option, chosen.
  destruct (generateShortCode clk) as [g|]; [|reflexivity].
  unfold ret, read, boot. cbn [srv].
  destruct (urls s !! _); reflexivity.
Qed.

Lemma GetOriginalURL_run (env : clients) (now : Z) (c : string) (s : urlServer) :
  run (GetOriginalURL env now c) s =
  Some
    match cache_hit (cacheGet env c) with
    | Some v =>
        (found_url v,
         {| srv := clicked s c;
            calls := [CacheGet c];
            spawned := [GoIncrementClick c] |})
    | None =>
        match urls s !! c with
        | Some u =>
            (found_url u,
             {| srv := clicked s c;
                calls := [CacheGet c];
                spawned := [warmCache c u; GoIncrementClick c] |})
        | None =>
            match storage_hit (storageGetURL env c) with
            | Some u =>
                (found_url u,
                 {| srv := clicked (created s c u now) c;
                    calls := [CacheGet c; StorageGetURL c];
                    spawned := [warmCache c u; GoIncrementClick c] |})
            | None =>
                (not_found_url,
                 {| srv := s;
                    calls := [CacheGet c; StorageGetURL c];
                    spawned := [] |})
            end
        end
    end.
Proof.
  unfold run, GetOriginalURL, bind, invoke, read, boot. cbn [srv calls spawned app].
  destruct (cache_hit (cacheGet env c)) as [v|]; [reflexivity|].
  cbn [srv]. destruct (urls s !! c) as [u|]; [reflexivity|].
  destruct (storage_hit (storageGetURL env c)) as [u|]; reflexivity.
Qed.

Lemma GetURLStats_run (RFC3339 : Z -> string) (env : clients) (c : string)
    (s : urlServer) :
  run (GetURLStats RFC3339 env c) s =
  Some
    match stats s !! c with
    | Some n =>
        ({| StatsResponse.ShortCode := c;
            StatsResponse.ClickCount := n;
            StatsResponse.CreatedAt :=
              RFC3339 (default zeroTime (createdAt s !! c));
            StatsResponse.Error := "" |},
         boot s)
    | None =>
        (match stats_ok (storageGetStats env c) with
         | Some resp =>
             {| StatsResponse.ShortCode := c;
                StatsResponse.ClickCount :=
                  storage_service.GetStatsResponse.ClickCount resp;
                StatsResponse.CreatedAt :=
                  storage_service.GetStatsResponse.CreatedAt resp;
                StatsResponse.Error := "" |}
         | None => url_not_found
         end,
         {| srv := s; calls := [StorageGetStats c]; spawned := [] |})
    end.
Proof.
  unfold run, GetURLStats, bind, read, invoke, boot. cbn [srv calls spawned app fst snd].
  destruct (stats s !! c) as [n|]; [reflexivity|].
  destruct (stats_ok (storageGetStats env c)); reflexivity.
Qed.

(** ** Create, then resolve *)




(** ** Duplicate custom alias *)

(** C2: when a [ShortenURL] with the custom alias [a] has succeeded for [u1],
    a second [ShortenURL] with the same alias and any URL returns the error
    "Custom alias already exists", starts no background work, and leaves the
    local state (all three maps) exactly as it was, still mapping [a] to
    [u1]. *)
Theorem duplicate_alias_rejected (clk1 clk2 : nat -> Z) (a u1 u2 : string)
    (s : urlServer) (resp1 : ShortenResponse.t) (w1 : world) :
  a <> "" ->
  run (ShortenURL clk1 {| ShortenRequest.OriginalUrl := u1;
                          ShortenRequest.CustomAlias := a |}) s = Some (resp1, w1) ->
  ShortenResponse.Error resp1 = "" ->
  after_epoch clk2 ->
  urls (srv w1) !! a = Some u1 /\
  run (ShortenURL clk2 {| ShortenRequest.OriginalUrl := u2;
                          ShortenRequest.CustomAlias := a |}) (srv w1) =
    Some (conflict, boot (srv w1)) /\
  ShortenResponse.Error conflict = "Custom alias already exists".
Proof.
  intros Ha Hrun Hok Hclk. rewrite ShortenURL_run in Hrun.
  destruct (generateShortCode clk1) as [g1|]; [|discriminate].
  unfold chosen in Hrun. cbn [ShortenRequest.CustomAlias ShortenRequest.OriginalUrl] in Hrun.
  destruct (decide (a = "")) as [|_]; [contradiction|]. cbn zeta in Hrun.
  destruct (urls s !! a) eqn:Hfree.
  - injection Hrun as <- _. discriminate.
  - injection Hrun as _ <-. cbn [srv].
    assert (Hin : urls (created s a u1 (clk1 6%nat)) !! a = Some u1)
      by (unfold created; cbn [urls]; apply lookup_insert_eq).
    split; [exact Hin|]. split; [|reflexivity].
    rewrite ShortenURL_run.
    destruct (generateShortCode_total clk2 Hclk) as [g2 ->].
    unfold chosen. cbn [ShortenRequest.CustomAlias].
    destruct (decide (a = "")) as [|_]; [contradiction|].
    cbn zeta. rewrite Hin. reflexivity.
Qed.

Lemma duplicate_alias_rejected_witness :
  urls (created NewURLServer "promo" "https://first.example" 5) !! "promo" =
    Some "https://first.example" /\
  run (ShortenURL (fun _ => 9) (promo_request "https://second.example"))
      (created NewURLServer "promo" "https://first.example" 5) =
    Some (conflict, boot (created NewURLServer "promo" "https://first.example" 5)) /\
  ShortenResponse.Error conflict = "Custom alias already exists".
Proof.
  refine (duplicate_alias_rejected (fun _ => 5) (fun _ => 9) "promo"
            "https://first.example" "https://second.example" NewURLServer
            {| ShortenResponse.ShortCode := "promo";
               ShortenResponse.OriginalUrl := "https://first.example";
               ShortenResponse.Error := "" |}
            {| srv := created NewURLServer "promo" "https://first.example" 5;
               calls := [];
               spawned :=
                 [GoSaveURL {| storage_service.SaveURLRequest.ShortCode := "promo";
                               storage_service.SaveURLRequest.OriginalUrl :=
                                 "https://first.example" |};
                  GoCacheSet {| cache_service.SetRequest.Key := "promo";
                                cache_service.SetRequest.Value := "https://first.example";
                                cache_service.SetRequest.TtlSeconds := 360 |}] |}
            _ eq_refl eq_refl _).
  - discriminate.
  - intros i _. vm_compute. discriminate.
Defined.

(** ** The lookup cascade *)

(** C3: [GetOriginalURL] queries the fast cache first, then reads local
    state, then queries the durable store, and stops at the first tier that
    hits: a response of the fast cache with found = true is the answer and
    nothing else is queried; otherwise a local URL is the answer and the
    durable store is not queried; otherwise a durable response with
    found = true is the answer.  It returns found = false exactly when all
    three tiers miss. *)
Theorem resolve_cascade (env : clients) (now : Z) (c : string) (s : urlServer) :
  exists r w,
    run (GetOriginalURL env now c) s = Some (r, w) /\
    match cacheGet env c with
    | RpcOk {| cache_service.GetResponse.Value := v;
               cache_service.GetResponse.Found := true |} =>
        r = found_url v /\ calls w = [CacheGet c]
    | _ =>
        match urls s !! c with
        | Some u => r = found_url u /\ calls w = [CacheGet c]
        | None =>
            match storageGetURL env c with
            | RpcOk {| storage_service.GetURLResponse.OriginalUrl := u;
                       storage_service.GetURLResponse.Found := true;
                       storage_service.GetURLResponse.Error := _ |} =>
                r = found_url u /\ calls w = [CacheGet c; StorageGetURL c]
            | _ =>
                r = not_found_url /\ calls w = [CacheGet c; StorageGetURL c]
            end
        end
    end /\
    (GetOriginalResponse.Found r = false <-> all_tiers_miss env c s).
Proof.
  rewrite GetOriginalURL_run. unfold all_tiers_miss, cache_hit, storage_hit.
  destruct (cacheGet env c) as [e|[v [|]]] eqn:Hcache.
  2:{ do 2 eexists. split; [reflexivity|]. split; [split; reflexivity|].
      cbn. split; [discriminate|]. intros (H & _). specialize (H _ eq_refl).
      discriminate. }
  all: cbn [cache_service.GetResponse.Found].
  all: destruct (urls s !! c) as [u|] eqn:Hlocal.
  1,3: do 2 eexists; (split; [reflexivity|]); (split; [split; reflexivity|]);
       cbn; (split; [discriminate|]); intros (_ & ? & _); discriminate.
  all: destruct (storageGetURL env c) as [e'|[u [|] err]] eqn:Hdurable.
  all: cbn [storage_service.GetURLResponse.Found
            storage_service.GetURLResponse.OriginalUrl].
  all: do 2 eexists; (split; [reflexivity|]); (split; [split; reflexivity|]); cbn.
  all: try (split; [discriminate|]; intros (_ & _ & H); specialize (H _ eq_refl);
            discriminate).
  all: split; [intros _|reflexivity].
  all: repeat split; try reflexivity; intros resp [= <-]; reflexivity || discriminate.
Qed.

Lemma resolve_cascade_witness :
  (exists r w,
     run (GetOriginalURL (cache_answers "https://old.example") 0 "promo")
         (created NewURLServer "promo" "https://new.example" 0) = Some (r, w) /\
     (r = found_url "https://old.example" /\ calls w = [CacheGet "promo"]) /\
     (GetOriginalResponse.Found r = false <->
      all_tiers_miss (cache_answers "https://old.example") "promo"
        (created NewURLServer "promo" "https://new.example" 0))) /\
  (exists r w,
     run (GetOriginalURL (durable_only reference_layout one_row_database) 0 "promo")
         (created NewURLServer "promo" "https://new.example" 0) = Some (r, w) /\
     (r = found_url "https://new.example" /\ calls w = [CacheGet "promo"]) /\
     (GetOriginalResponse.Found r = false <->
      all_tiers_miss (durable_only reference_layout one_row_database) "promo"
        (created NewURLServer "promo" "https://new.example" 0))) /\
  (exists r w,
     run (GetOriginalURL (durable_only reference_layout one_row_database) 0 "abc123")
         NewURLServer = Some (r, w) /\
     (r = found_url "https://x.com" /\
      calls w = [CacheGet "abc123"; StorageGetURL "abc123"]) /\
     (GetOriginalResponse.Found r = false <->
      all_tiers_miss (durable_only reference_layout one_row_database) "abc123"
        NewURLServer)) /\
  (exists r w,
     run (GetOriginalURL (durable_only reference_layout one_row_database) 0 "zzz000")
         NewURLServer = Some (r, w) /\
     (r = not_found_url /\
      calls w = [CacheGet "zzz000"; StorageGetURL "zzz000"]) /\
     (GetOriginalResponse.Found r = false <->
      all_tiers_miss (durable_only reference_layout one_row_database) "zzz000"
        NewURLServer)).
Proof.
  split; [|split; [|split]].
  - exact (resolve_cascade (cache_answers "https://old.example") 0 "promo"
             (created NewURLServer "promo" "https://new.example" 0)).
  - exact (resolve_cascade (durable_only reference_layout one_row_database) 0 "promo"
             (created NewURLServer "promo" "https://new.example" 0)).
  - exact (resolve_cascade (durable_only reference_layout one_row_database) 0 "abc123"
             NewURLServer).
  - exact (resolve_cascade (durable_only reference_layout one_row_database) 0 "zzz000"
             NewURLServer).
Defined.




(** ** Collision of a generated code *)

(** C6, as stated, fails: the generated code "aaaaaa" is taken; the clock
    readings that a second attempt would use give the free code "bbbbbb", yet
    the call fails at once, with the conflict error, and local state is
    unchanged. *)
Lemma collision_is_not_retried :
  generateShortCode two_phase_clock = Some "aaaaaa" /\
  generateShortCode (fun i => two_phase_clock (i + 6)%nat) = Some "bbbbbb" /\
  urls (created NewURLServer "aaaaaa" "https://taken.example" 0) !! "bbbbbb" = None /\
  run (ShortenURL two_phase_clock example_request)
      (created NewURLServer "aaaaaa" "https://taken.example" 0) =
    Some (conflict, boot (created NewURLServer "aaaaaa" "https://taken.example" 0)) /\
  ShortenResponse.Error conflict = "Custom alias already exists".
Proof. vm_compute. repeat split; reflexivity. Qed.

(** C6 (amended): when [ShortenURL] is called without a custom alias and the
    generated code is already a key of the local URL map, the engine does not
    retry: the generator has run once, and the call returns the error
    "Custom alias already exists" with local state unchanged and no
    background work started. *)
Theorem generated_collision_conflicts (clk : nat -> Z) (req : ShortenRequest.t)
    (s : urlServer) (c : string) :
  ShortenRequest.CustomAlias req = "" ->
  generateShortCode clk = Some c ->
  is_Some (urls s !! c) ->
  run (ShortenURL clk req) s = Some (conflict, boot s) /\
  ShortenResponse.Error conflict = "Custom alias already exists".
Proof.
  intros Hnone Hgen [u Hu]. split; [|reflexivity].
  rewrite ShortenURL_run, Hgen. unfold chosen.
  destruct (decide (ShortenRequest.CustomAlias req = "")) as [_|]; [|contradiction].
  cbn zeta. rewrite Hu. reflexivity.
Qed.

Lemma generated_collision_conflicts_witness :
  run (ShortenURL (fun _ => 0) example_request)
      (created NewURLServer "aaaaaa" "https://taken.example" 0) =
    Some (conflict, boot (created NewURLServer "aaaaaa" "https://taken.example" 0)) /\
  ShortenResponse.Error conflict = "Custom alias already exists".
Proof.
  refine (generated_collision_conflicts (fun _ => 0) example_request
            (created NewURLServer "aaaaaa" "https://taken.example" 0) "aaaaaa"
            eq_refl eq_refl _).
  vm_compute. eauto.
Defined.

(** ** Resolution through the durable tier *)



(** ** Statistics *)

Lemma stats_ok_fails (r : rpc storage_service.GetStatsResponse.t) :
  stats_call_fails r -> stats_ok r = None.
Proof.
  destruct r as [err|resp]; cbn; [reflexivity|]. intros Hne.
  destruct (decide (storage_service.GetStatsResponse.Error resp = ""));
    [contradiction|reflexivity].
Qed.

(** The cases of [GetURLStats], as the code decides them: a code counts as
    local when the stats map has it (click count and formatted creation time
    of the local maps, the zero time when the creation-time map has no entry,
    no outbound call); otherwise one durable stats lookup is issued and its
    click count and creation time are returned; with the storage service
    answering for a database without a row for the code the response is the
    error "URL not found".  Local state is never changed. *)
Lemma stats_lookup (RFC3339 : Z -> string) (env : clients) (c : string)
    (s : urlServer) :
  exists r w,
    run (GetURLStats RFC3339 env c) s = Some (r, w) /\
    srv w = s /\ spawned w = [] /\
    (forall n : Z, stats s !! c = Some n ->
       calls w = [] /\
       r = {| StatsResponse.ShortCode := c;
              StatsResponse.ClickCount := n;
              StatsResponse.CreatedAt :=
                RFC3339 (default zeroTime (createdAt s !! c));
              StatsResponse.Error := "" |}) /\
    (stats s !! c = None ->
       calls w = [StorageGetStats c] /\
       (forall resp, stats_ok (storageGetStats env c) = Some resp ->
          r = {| StatsResponse.ShortCode := c;
                 StatsResponse.ClickCount :=
                   storage_service.GetStatsResponse.ClickCount resp;
                 StatsResponse.CreatedAt :=
                   storage_service.GetStatsResponse.CreatedAt resp;
                 StatsResponse.Error := "" |}) /\
       (forall db row,
          storageGetStats env c = RpcOk (storageServer.GetStats RFC3339 db c) ->
          storageServer.QueryRow db c = storageServer.Scanned row ->
          r = {| StatsResponse.ShortCode := c;
                 StatsResponse.ClickCount := storageServer.click_count row;
                 StatsResponse.CreatedAt :=
                   RFC3339 (storageServer.created_at row);
                 StatsResponse.Error := "" |}) /\
       (forall db,
          storageGetStats env c = RpcOk (storageServer.GetStats RFC3339 db c) ->
          storageServer.QueryRow db c = storageServer.ErrNoRows ->
          r = url_not_found /\
          StatsResponse.Error r = "URL not found")).
Proof.
  rewrite GetURLStats_run. destruct (stats s !! c) as [n|] eqn:Hn.
  - do 2 eexists. split; [reflexivity|]. cbn [srv spawned calls boot].
    split; [reflexivity|]. split; [reflexivity|]. split; [|discriminate].
    intros n' [= <-]. split; reflexivity.
  - do 2 eexists. split; [reflexivity|]. cbn [srv spawned calls].
    split; [reflexivity|]. split; [reflexivity|]. split; [discriminate|].
    intros _. split; [reflexivity|]. split; [|split].
    + intros resp ->. reflexivity.
    + intros db row -> Hrow. unfold storageServer.GetStats. rewrite Hrow.
      reflexivity.
    + intros db -> Hrow. unfold storageServer.GetStats. rewrite Hrow.
      split; reflexivity.
Qed.

(** C8 fails on the state a cache hit leaves.  On the empty server, one
    lookup of "abc123" answered by the fast cache gives the code a counter
    but no URL record and no creation time.  For that code, which is not
    present in local state, [GetURLStats] does not fall through to the
    durable store: whatever the durable store would answer, and whatever the
    layout of the time, it issues no outbound call and returns the local
    counter, 1, with the zero time as creation time. *)
Theorem stats_of_unrecorded_code (RFC3339 : Z -> string) (env : clients) :
  exists w,
    run (GetOriginalURL (cache_answers "https://x.com") 0 "abc123") NewURLServer =
      Some (found_url "https://x.com", w) /\
    urls (srv w) !! "abc123" = None /\
    createdAt (srv w) !! "abc123" = None /\
    run (GetURLStats RFC3339 env "abc123") (srv w) =
      Some ({| StatsResponse.ShortCode := "abc123";
               StatsResponse.ClickCount := 1;
               StatsResponse.CreatedAt := RFC3339 zeroTime;
               StatsResponse.Error := "" |},
            {| srv := srv w; calls := []; spawned := [] |}).
Proof.
  eexists. split; [rewrite GetOriginalURL_run; reflexivity|]. cbn [srv].
  split; [vm_compute; reflexivity|]. split; [vm_compute; reflexivity|].
  rewrite GetURLStats_run. reflexivity.
Qed.

(** C10: for a code with no local stats entry, whenever the durable stats
    call fails, by a transport error or by any non-empty error string,
    [GetURLStats] returns the error "URL not found": the answer is the same
    for an unreachable store as for a code the store does not have. *)
Theorem stats_failure_is_not_found (RFC3339 : Z -> string) (env : clients)
    (c : string) (s : urlServer) :
  stats s !! c = None ->
  stats_call_fails (storageGetStats env c) ->
  run (GetURLStats RFC3339 env c) s =
    Some (url_not_found,
          {| srv := s; calls := [StorageGetStats c]; spawned := [] |}) /\
  StatsResponse.Error url_not_found = "URL not found".
Proof.
  intros Hlocal Hfail. split; [|reflexivity].
  rewrite GetURLStats_run, Hlocal, (stats_ok_fails _ Hfail). reflexivity.
Qed.

Lemma stats_failure_is_not_found_witness :
  run (GetURLStats reference_layout unreachable "zzz000") NewURLServer =
    Some (url_not_found,
          {| srv := NewURLServer;
             calls := [StorageGetStats "zzz000"];
             spawned := [] |}) /\
  StatsResponse.Error url_not_found = "URL not found".
Proof.
  exact (stats_failure_is_not_found reference_layout unreachable "zzz000"
           NewURLServer eq_refl I).
Defined.

(** The storage service reports a failing database connection and a missing
    row through the same field, so both are failures of the stats call. *)
Lemma storage_failures_alike (RFC3339 : Z -> string)
    (db : storageServer.database) (c msg : string) :
  msg <> "" ->
  storageServer.QueryRow db c = storageServer.ErrNoRows \/
  storageServer.QueryRow db c = storageServer.ScanErr msg ->
  stats_call_fails (RpcOk (storageServer.GetStats RFC3339 db c)).
Proof.
  intros Hmsg [H|H]; unfold storageServer.GetStats; rewrite H; cbn;
    [discriminate|exact Hmsg].
Qed.

(** ** Key sets of the three local maps *)

Lemma wrap64_in_range (z : Z) :
  min_int64 <= z <= max_int64 -> wrap64 z = z.
Proof.
  unfold min_int64, max_int64, wrap64.
  change (2 ^ 63) with 9223372036854775808.
  change (2 ^ 64) with 18446744073709551616.
  intros Hz. rewrite Z.mod_small; lia.
Qed.

Lemma counter_created (s : urlServer) (c u : string) (now : Z) (c' : string) :
  counter (created s c u now) c' = if decide (c = c') then 0 else counter s c'.
Proof.
  unfold counter, created. cbn [stats]. rewrite lookup_insert.
  destruct (decide (c = c')); reflexivity.
Qed.

Lemma counter_clicked (s : urlServer) (c c' : string) :
  counter (clicked s c) c' =
  if decide (c = c') then wrap64 (counter s c + 1) else counter s c'.
Proof.
  unfold clicked. unfold counter at 1. cbn [stats]. rewrite lookup_insert.
  destruct (decide (c = c')); reflexivity.
Qed.

Lemma created_same_keys (s : urlServer) (c u : string) (now : Z) :
  same_keys s -> same_keys (created s c u now).
Proof.
  unfold same_keys, created. cbn [urls stats createdAt].
  rewrite !dom_insert_L. intros [-> ->]. split; reflexivity.
Qed.

Lemma clicked_same_keys (s : urlServer) (c : string) :
  is_Some (urls s !! c) -> same_keys s -> same_keys (clicked s c).
Proof.
  unfold same_keys, clicked. cbn [urls stats createdAt].
  rewrite dom_insert_L. intros Hc%elem_of_dom [H1 H2].
  assert (Hin : {[c]} ∪ dom (stats s) = dom (stats s)).
  { apply subseteq_union_1_L, singleton_subseteq_l. rewrite <- H1. exact Hc. }
  rewrite Hin. split; assumption.
Qed.

Lemma created_record_keys (s : urlServer) (c u : string) (now : Z) :
  record_keys s -> record_keys (created s c u now).
Proof.
  unfold record_keys, created. cbn [urls stats createdAt].
  rewrite !dom_insert_L. intros [H1 H2]. rewrite H1.
  split; [reflexivity|]. rewrite <- H1. apply union_mono_l, H2.
Qed.

Lemma clicked_record_keys (s : urlServer) (c : string) :
  record_keys s -> record_keys (clicked s c).
Proof.
  unfold record_keys, clicked. cbn [urls stats createdAt].
  rewrite dom_insert_L. intros [H1 H2]. split; [exact H1|].
  etrans; [exact H2|]. apply union_subseteq_r.
Qed.

(** [ShortenURL] keeps the three key sets equal. *)
Lemma ShortenURL_same_keys (clk : nat -> Z) (req : ShortenRequest.t)
    (s : urlServer) (r : ShortenResponse.t) (w : world) :
  same_keys s -> run (ShortenURL clk req) s = Some (r, w) -> same_keys (srv w).
Proof.
  intros Hs. rewrite ShortenURL_run.
  destruct (generateShortCode clk) as [g|]; [|discriminate]. cbn zeta.
  destruct (urls s !! chosen g req); intros [= _ <-]; cbn [srv boot];
    auto using created_same_keys.
Qed.

(** [GetURLStats] does not touch local state. *)
Lemma GetURLStats_state (RFC3339 : Z -> string) (env : clients) (c : string)
    (s : urlServer) (r : StatsResponse.t) (w : world) :
  run (GetURLStats RFC3339 env c) s = Some (r, w) -> srv w = s.
Proof.
  rewrite GetURLStats_run.
  destruct (stats s !! c); intros [= _ <-]; reflexivity.
Qed.

(** [GetOriginalURL] keeps the three key sets equal on the local and on the
    durable branch. *)
Lemma GetOriginalURL_same_keys (env : clients) (now : Z) (c : string)
    (s : urlServer) (r : GetOriginalResponse.t) (w : world) :
  cache_hit (cacheGet env c) = None ->
  same_keys s -> run (GetOriginalURL env now c) s = Some (r, w) ->
  same_keys (srv w).
Proof.
  intros Hmiss Hs. rewrite GetOriginalURL_run, Hmiss.
  destruct (urls s !! c) as [u|] eqn:Hu.
  - intros [= _ <-]. cbn [srv]. apply clicked_same_keys; eauto.
  - destruct (storage_hit (storageGetURL env c)) as [u|];
      intros [= _ <-]; cbn [srv]; [|exact Hs].
    apply clicked_same_keys.
    + unfold created. cbn [urls]. rewrite lookup_insert_eq. eauto.
    + apply created_same_keys, Hs.
Qed.

(** On every branch [GetOriginalURL] keeps URL records and creation times
    keyed alike, each with a stats entry. *)
Lemma GetOriginalURL_record_keys (env : clients) (now : Z) (c : string)
    (s : urlServer) (r : GetOriginalResponse.t) (w : world) :
  record_keys s -> run (GetOriginalURL env now c) s = Some (r, w) ->
  record_keys (srv w).
Proof.
  intros Hs. rewrite GetOriginalURL_run.
  destruct (cache_hit (cacheGet env c)) as [v|].
  { intros [= _ <-]. cbn [srv]. apply clicked_record_keys, Hs. }
  destruct (urls s !! c) as [u|].
  { intros [= _ <-]. cbn [srv]. apply clicked_record_keys, Hs. }
  destruct (storage_hit (storageGetURL env c)) as [u|];
    intros [= _ <-]; cbn [srv]; [|exact Hs].
  apply clicked_record_keys, created_record_keys, Hs.
Qed.

(** The local state a move of a lookup leaves. *)
Lemma lookup_step_state (env : clients) (now : Z) (c : string) (p : control)
    (s : urlServer) :
  (lookup_step env now c p s).2 =
  match p with
  | Materialise u => created s c u now
  | CountHit _ => clicked s c
  | _ => s
  end.
Proof.
  destruct p; cbn [lookup_step]; try reflexivity.
  - destruct (cache_hit (cacheGet env c)); reflexivity.
  - destruct (urls s !! c); reflexivity.
  - destruct (storage_hit (storageGetURL env c)); reflexivity.
Qed.

(** Every atomic transition of the engine, hence every interleaving of
    calls, keeps URL records and creation times keyed alike, each with a
    stats entry. *)
Lemma perform_record_keys (op : operation) (s s' : urlServer) :
  record_keys s -> perform op s = Some s' -> record_keys s'.
Proof.
  intros Hs. destruct op as [clk req|env now c p|RFC3339 env c|c]; cbn [perform].
  - rewrite ShortenURL_run.
    destruct (generateShortCode clk) as [g|]; [|discriminate]. cbn zeta.
    destruct (urls s !! chosen g req); intros [= <-]; cbn [srv boot snd];
      auto using created_record_keys.
  - intros [= <-]. rewrite lookup_step_state.
    destruct p; auto using created_record_keys, clicked_record_keys.
  - destruct (run (GetURLStats RFC3339 env c) s) as [[r w]|] eqn:Hrun; [|discriminate].
    intros [= <-]. cbn [snd]. rewrite (GetURLStats_state _ _ _ _ _ _ Hrun). exact Hs.
  - unfold run. rewrite incrementStats_run. intros [= <-]. cbn [srv boot snd].
    apply clicked_record_keys, Hs.
Qed.

(** C4 fails on the cache-hit branch of [GetOriginalURL]: on the empty server,
    a lookup of "abc123" that the fast cache answers increments the counter
    of a code that has no local record, so the stats map gets the key
    "abc123" while the URL map and the creation-time map stay empty; the three
    maps had the same keys before the call and do not have them after it, and
    [GetURLStats] then reports the zero time as the creation time. *)
Theorem cache_hit_breaks_key_agreement :
  exists w,
    run (GetOriginalURL (cache_answers "https://x.com") 0 "abc123") NewURLServer =
      Some (found_url "https://x.com", w) /\
    same_keys NewURLServer /\
    stats (srv w) !! "abc123" = Some 1 /\
    urls (srv w) !! "abc123" = None /\
    createdAt (srv w) !! "abc123" = None /\
    ~ same_keys (srv w) /\
    run (GetURLStats reference_layout unreachable "abc123") (srv w) =
      Some ({| StatsResponse.ShortCode := "abc123";
               StatsResponse.ClickCount := 1;
               StatsResponse.CreatedAt := reference_layout zeroTime;
               StatsResponse.Error := "" |}, boot (srv w)).
Proof.
  eexists. split; [rewrite GetOriginalURL_run; reflexivity|]. cbn [srv].
  split; [split; reflexivity|].
  split; [vm_compute; reflexivity|].
  split; [vm_compute; reflexivity|].
  split; [vm_compute; reflexivity|].
  split; [|vm_compute; reflexivity].
  intros [Hkeys _].
  assert (Hin : "abc123" ∈ dom (stats (clicked NewURLServer "abc123"))).
  { apply elem_of_dom. exists 1. vm_compute. reflexivity. }
  rewrite <- Hkeys in Hin. apply elem_of_dom in Hin as [u Hu].
  vm_compute in Hu. discriminate.
Qed.

(** ** The click counter *)

Lemma clicked_counter (s : urlServer) (c c' : string) :
  min_int64 <= counter s c' < max_int64 ->
  counter s c' <= counter (clicked s c) c'.
Proof.
  intros Hrange. rewrite counter_clicked.
  destruct (decide (c = c')) as [->|]; [|lia].
  rewrite wrap64_in_range; lia.
Qed.

(** [ShortenURL] leaves the counter of a code that has a record as it is. *)
Lemma ShortenURL_counter (clk : nat -> Z) (req : ShortenRequest.t)
    (s : urlServer) (r : ShortenResponse.t) (w : world) (c : string) :
  is_Some (urls s !! c) -> run (ShortenURL clk req) s = Some (r, w) ->
  counter (srv w) c = counter s c /\ is_Some (urls (srv w) !! c).
Proof.
  intros Hc. rewrite ShortenURL_run.
  destruct (generateShortCode clk) as [g|]; [|discriminate]. cbn zeta.
  destruct (urls s !! chosen g req) eqn:Hfree; intros [= _ <-]; cbn [srv boot].
  - split; [reflexivity|exact Hc].
  - assert (Hne : chosen g req <> c).
    { intros Heq. rewrite Heq, Hfree in *. destruct Hc; discriminate. }
    rewrite counter_created. destruct (decide (chosen g req = c)); [contradiction|].
    split; [reflexivity|]. unfold created. cbn [urls].
    rewrite lookup_insert_ne; auto.
Qed.

(** A [GetOriginalURL] that no other call interleaves with does not lower
    the counter of a code that has a record, as long as that counter is below
    the largest [int64]. *)
Lemma GetOriginalURL_counter (env : clients) (now : Z) (c0 : string)
    (s : urlServer) (r : GetOriginalResponse.t) (w : world) (c : string) :
  is_Some (urls s !! c) -> min_int64 <= counter s c < max_int64 ->
  run (GetOriginalURL env now c0) s = Some (r, w) ->
  counter s c <= counter (srv w) c /\ is_Some (urls (srv w) !! c).
Proof.
  intros Hc Hrange. rewrite GetOriginalURL_run.
  destruct (cache_hit (cacheGet env c0)) as [v|].
  { intros [= _ <-]. cbn [srv]. split; [apply clicked_counter, Hrange|exact Hc]. }
  destruct (urls s !! c0) as [u|] eqn:Hlocal.
  { intros [= _ <-]. cbn [srv]. split; [apply clicked_counter, Hrange|exact Hc]. }
  assert (Hne : c0 <> c).
  { intros Heq. rewrite Heq, Hlocal in *. destruct Hc; discriminate. }
  destruct (storage_hit (storageGetURL env c0)) as [u|];
    intros [= _ <-]; cbn [srv]; [|split; [lia|exact Hc]].
  rewrite counter_clicked. destruct (decide (c0 = c)); [contradiction|].
  rewrite counter_created. destruct (decide (c0 = c)); [contradiction|].
  split; [lia|]. cbn [clicked created urls]. rewrite lookup_insert_ne; auto.
Qed.

(** C5, as stated, fails.  On the empty server, two lookups of "abc123"
    answered by the fast cache bring its local counter to 2 without a local
    record; the next lookup, answered by the durable store, stores 0 in the
    counter before the hit is counted, and the counter is 1.  The counter is
    an [int64]: on a server whose record has the largest counter, one more
    lookup wraps it around to the smallest one.  And two calls for a code
    that only the durable store has may both miss local state before either
    writes: the first creates the record and counts its hit, then the write
    of the second, issued without looking at the record again, puts the
    counter of the existing record back from 1 to 0. *)
Lemma counter_can_decrease :
  (exists w1 w2 w3,
     run (GetOriginalURL (cache_answers "https://x.com") 0 "abc123") NewURLServer =
       Some (found_url "https://x.com", w1) /\
     run (GetOriginalURL (cache_answers "https://x.com") 0 "abc123") (srv w1) =
       Some (found_url "https://x.com", w2) /\
     run (GetOriginalURL (durable_only reference_layout one_row_database) 0 "abc123")
         (srv w2) = Some (found_url "https://x.com", w3) /\
     stats (srv w2) !! "abc123" = Some 2 /\
     stats (srv w3) !! "abc123" = Some 1 /\
     counter (srv w3) "abc123" < counter (srv w2) "abc123") /\
  (exists w,
     run (GetOriginalURL unreachable 0 "abc123") saturated =
       Some (found_url "https://x.com", w) /\
     counter saturated "abc123" = max_int64 /\
     counter (srv w) "abc123" = min_int64 /\
     counter (srv w) "abc123" < counter saturated "abc123") /\
  (urls (interleave [0; 0; 1; 1; 0; 0; 0; 1]%nat two_lookups).2 !! "abc123" =
     Some "https://x.com" /\
   flight_at <$> (interleave [0; 0; 1; 1; 0; 0; 0; 1]%nat two_lookups).1 =
     [Returned (found_url "https://x.com"); Materialise "https://x.com"] /\
   counter (interleave [0; 0; 1; 1; 0; 0; 0; 1]%nat two_lookups).2 "abc123" = 1 /\
   counter (interleave [0; 0; 1; 1; 0; 0; 0; 1; 1]%nat two_lookups).2 "abc123" = 0 /\
   flight_at <$> (interleave [0; 0; 1; 1; 0; 0; 0; 1; 1; 1]%nat two_lookups).1 =
     [Returned (found_url "https://x.com"); Returned (found_url "https://x.com")] /\
   counter (interleave [0; 0; 1; 1; 0; 0; 0; 1; 1; 1]%nat two_lookups).2 "abc123" = 1).
Proof.
  split; [|split].
  - do 3 eexists.
    split; [rewrite GetOriginalURL_run; reflexivity|]. cbn [srv].
    split; [rewrite GetOriginalURL_run; reflexivity|]. cbn [srv].
    split; [rewrite GetOriginalURL_run; vm_compute; reflexivity|]. cbn [srv].
    split; [vm_compute; reflexivity|].
    split; [vm_compute; reflexivity|].
    vm_compute. reflexivity.
  - eexists.
    split; [rewrite GetOriginalURL_run; vm_compute; reflexivity|]. cbn [srv].
    split; [vm_compute; reflexivity|].
    split; [vm_compute; reflexivity|].
    vm_compute. reflexivity.
  - repeat split; vm_compute; reflexivity.
Qed.

(** A call of [GetOriginalURL] that moves through its control points with no
    other call in between ends where [run] says: the machine and the handler
    are the same program. *)
Lemma lookup_alone (env : clients) (now : Z) (c : string) (s : urlServer) :
  exists r w,
    run (GetOriginalURL env now c) s = Some (r, w) /\
    interleave [0; 0; 0; 0; 0]%nat
      ([ {| flight_env := env; flight_now := now; flight_code := c;
            flight_at := QueryCache |} ], s) =
      ([ {| flight_env := env; flight_now := now; flight_code := c;
            flight_at := Returned r |} ], srv w).
Proof.
  rewrite GetOriginalURL_run. unfold interleave. cbn [foldl]. unfold advance.
  cbn. destruct (cache_hit (cacheGet env c)) as [v|]; cbn.
  { do 2 eexists. split; reflexivity. }
  destruct (urls s !! c) as [u|]; cbn.
  { do 2 eexists. split; reflexivity. }
  destruct (storage_hit (storageGetURL env c)) as [u|]; cbn;
    do 2 eexists; split; reflexivity.
Qed.

(** C5 (amended): for every short code that has a local URL record and whose
    local counter is below the largest [int64], no atomic transition of the
    engine (the critical section of [ShortenURL], the read of [GetURLStats],
    [incrementStats], and every move of a [GetOriginalURL] call, with the hit
    it counts on any tier) makes the local counter smaller than it was, and
    the record is still there after it.  The statement leaves out one
    transition: the write of the durable branch of [GetOriginalURL] for that
    same code. *)
Theorem counter_never_lowered (op : operation) (s s' : urlServer) (c : string) :
  is_Some (urls s !! c) ->
  min_int64 <= counter s c < max_int64 ->
  ~ reloads op c ->
  perform op s = Some s' ->
  counter s c <= counter s' c /\ is_Some (urls s' !! c).
Proof.
  intros Hc Hrange Hop.
  destruct op as [clk req|env now c0 p|RFC3339 env c0|c0]; cbn [perform].
  - destruct (run (ShortenURL clk req) s) as [[r w]|] eqn:Hrun; [|discriminate].
    intros [= <-]. cbn [snd].
    destruct (ShortenURL_counter _ _ _ _ _ c Hc Hrun) as [-> ?]. split; [lia|auto].
  - intros [= <-]. rewrite lookup_step_state.
    destruct p as [| | |u|r|r]; try (split; [lia|exact Hc]).
    + cbn [reloads] in Hop. rewrite counter_created.
      destruct (decide (c0 = c)); [contradiction|]. split; [lia|].
      cbn [created urls]. rewrite lookup_insert_ne; auto.
    + split; [apply clicked_counter, Hrange|exact Hc].
  - destruct (run (GetURLStats RFC3339 env c0) s) as [[r w]|] eqn:Hrun; [|discriminate].
    intros [= <-]. cbn [snd]. rewrite (GetURLStats_state _ _ _ _ _ _ Hrun).
    split; [lia|exact Hc].
  - unfold run. rewrite incrementStats_run. intros [= <-]. cbn [srv boot].
    split; [apply clicked_counter, Hrange|exact Hc].
Qed.

Lemma counter_never_lowered_witness :
  counter (created NewURLServer "promo" "https://new.example" 0) "promo" <=
    counter (clicked (created NewURLServer "promo" "https://new.example" 0) "promo")
            "promo" /\
  is_Some (urls (clicked (created NewURLServer "promo" "https://new.example" 0) "promo")
             !! "promo").
Proof.
  refine (counter_never_lowered
            (OpLookup unreachable 0 "promo" (CountHit (found_url "https://new.example")))
            (created NewURLServer "promo" "https://new.example" 0)
            (clicked (created NewURLServer "promo" "https://new.example" 0) "promo")
            "promo" _ _ (fun H => H) eq_refl).
  - vm_compute. eauto.
  - vm_compute. split; [discriminate|reflexivity].
Defined.

(** * Further properties of the URL service *)

(** ** The code generator *)

Lemma get_in_string (s : string) (n : nat) (a : ascii) :
  String.get n s = Some a -> In a (list_ascii_of_string s).
Proof.
  revert n. induction s as [|b s IH]; intros n; cbn; [discriminate|].
  destruct n as [|n]; [intros [= ->]; left; reflexivity|].
  intros H. right. eapply IH, H.
Qed.

Lemma charset_at_in_charset (i : Z) (a : ascii) :
  charset_at i = Some a -> In a (list_ascii_of_string charset).
Proof.
  unfold charset_at. destruct (_ || _); [discriminate|]. apply get_in_string.
Qed.

Lemma length_string_of_list_ascii (l : list ascii) :
  String.length (string_of_list_ascii l) = length l.
Proof. induction l as [|a l IH]; cbn; [reflexivity|]. rewrite IH. reflexivity. Qed.

Lemma rem_62_bounds (z : Z) : -62 < Z.rem z 62 < 62.
Proof.
  destruct (Z.le_ge_cases 0 z) as [Hz|Hz].
  - pose proof (Z.rem_bound_pos z 62 Hz ltac:(lia)). lia.
  - pose proof (Z.rem_bound_pos_neg z 62 ltac:(lia) Hz). lia.
Qed.

Lemma charset_at_None (z : Z) :
  charset_at (Z.rem z 62) = None <-> Z.rem z 62 < 0.
Proof.
  pose proof (rem_62_bounds z) as Hb. split.
  - intros Hnone. destruct (Z.lt_ge_cases (Z.rem z 62) 0) as [|Hge]; [assumption|].
    destruct (charset_at_in_range (Z.rem z 62) ltac:(lia)) as [a Ha]. congruence.
  - intros Hneg. unfold charset_at.
    rewrite (proj2 (Z.ltb_lt _ _) Hneg). reflexivity.
Qed.

(** A generated code has six characters, each one taken from the
    alphabet. *)
Theorem generateShortCode_shape (clk : nat -> Z) (code : string) :
  generateShortCode clk = Some code ->
  String.length code = 6%nat /\
  forall a : ascii,
    In a (list_ascii_of_string code) -> In a (list_ascii_of_string charset).
Proof.
  unfold generateShortCode. intros Hgen.
  apply fmap_Some in Hgen as (l & Hl & ->).
  apply mapM_Some in Hl.
  split.
  - rewrite length_string_of_list_ascii. apply Forall2_length in Hl.
    rewrite <- Hl. reflexivity.
  - rewrite list_ascii_of_string_of_list_ascii. intros a Ha.
    apply list_elem_of_In, list_elem_of_lookup in Ha as [n Hn].
    destruct (Forall2_lookup_r _ _ _ _ _ Hl Hn) as (i & _ & Hi).
    eapply charset_at_in_charset, Hi.
Qed.

Lemma generateShortCode_shape_witness :
  String.length "ABCDEF" = 6%nat /\
  forall a : ascii,
    In a (list_ascii_of_string "ABCDEF") -> In a (list_ascii_of_string charset).
Proof.
  exact (generateShortCode_shape
           (fun i => 1700000000000000000 + Z.of_nat i) "ABCDEF" eq_refl).
Defined.

(** The generator panics exactly when one of its six clock readings, as an
    [int64], has a negative remainder modulo the size of the alphabet. *)
Theorem generateShortCode_panics_iff (clk : nat -> Z) :
  generateShortCode clk = None <->
  exists i : nat, (i < 6)%nat /\ Z.rem (UnixNano (clk i)) 62 < 0.
Proof.
  unfold generateShortCode.
  change (Z.of_nat (String.length charset)) with 62.
  rewrite fmap_None, eq_None_not_Some, mapM_is_Some, <- Exists_Forall_neg.
  - rewrite Exists_exists. split.
    + intros (i & Hi & Hnone). exists i. apply elem_of_seq in Hi.
      split; [lia|]. apply charset_at_None, eq_None_not_Some, Hnone.
    + intros (i & Hi & Hneg). exists i. split; [apply elem_of_seq; lia|].
      cbn. apply eq_None_not_Some, charset_at_None, Hneg.
  - intros i. cbn. destruct (charset_at _); [left; eauto|right].
    intros [? ?]; discriminate.
Qed.

(** When the six readings of the clock are the same instant, not before the
    epoch, the code is one character of the alphabet written six times:
    within one tick of the clock there are at most 62 codes. *)
Theorem generateShortCode_coarse_clock (clk : nat -> Z) (t : Z) :
  (forall i : nat, (i < 6)%nat -> clk i = t) ->
  0 <= UnixNano t ->
  exists a : ascii,
    charset_at (Z.rem (UnixNano t) 62) = Some a /\
    generateShortCode clk = Some (string_of_list_ascii (replicate 6 a)).
Proof.
  intros Hsame Hpos.
  destruct (charset_at_in_range (Z.rem (UnixNano t) 62)) as [a Ha].
  { pose proof (Z.rem_bound_pos (UnixNano t) 62 Hpos ltac:(lia)). lia. }
  exists a. split; [exact Ha|]. unfold generateShortCode.
  change (Z.of_nat (String.length charset)) with 62.
  cbn [seq mapM].
  rewrite !Hsame by lia. rewrite Ha. reflexivity.
Qed.

Lemma generateShortCode_coarse_clock_witness :
  exists a : ascii,
    charset_at (Z.rem (UnixNano 1700000000000000001) 62) = Some a /\
    generateShortCode (fun _ => 1700000000000000001) =
      Some (string_of_list_ascii (replicate 6 a)).
Proof.
  refine (generateShortCode_coarse_clock (fun _ => 1700000000000000001)
            1700000000000000001 (fun _ _ => eq_refl) _).
  vm_compute. discriminate.
Defined.

(** ** Creation *)

(** With a clock that is not before the epoch, [ShortenURL] returns without
    any outbound call, and succeeds exactly when the chosen code (the custom
    alias, or the generated code when the alias is empty) is not a key of the
    local URL map.  On success the response repeats the code and the URL, and
    the three maps hold the URL, a counter of 0 and the insertion time; on
    failure nothing at all has changed. *)
Theorem ShortenURL_succeeds_iff_free (clk : nat -> Z) (req : ShortenRequest.t)
    (s : urlServer) :
  after_epoch clk ->
  exists g r w,
    generateShortCode clk = Some g /\
    run (ShortenURL clk req) s = Some (r, w) /\
    calls w = [] /\
    (ShortenResponse.Error r = "" <-> urls s !! chosen g req = None) /\
    (ShortenResponse.Error r = "" ->
     ShortenResponse.ShortCode r = chosen g req /\
     ShortenResponse.OriginalUrl r = ShortenRequest.OriginalUrl req /\
     urls (srv w) !! chosen g req = Some (ShortenRequest.OriginalUrl req) /\
     stats (srv w) !! chosen g req = Some 0 /\
     createdAt (srv w) !! chosen g req = Some (clk 6%nat)) /\
    (ShortenResponse.Error r <> "" -> w = boot s).
Proof.
  intros Hclk. destruct (generateShortCode_total clk Hclk) as [g Hg].
  rewrite ShortenURL_run, Hg. cbn zeta. exists g.
  destruct (urls s !! chosen g req) as [u|] eqn:Hfree.
  - do 2 eexists. split; [reflexivity|]. split; [reflexivity|].
    split; [reflexivity|]. cbn. split; [split; discriminate|].
    split; [discriminate|reflexivity].
  - do 2 eexists. split; [reflexivity|]. split; [reflexivity|].
    split; [reflexivity|]. cbn [ShortenResponse.Error ShortenResponse.ShortCode
      ShortenResponse.OriginalUrl srv created urls stats createdAt].
    split; [split; reflexivity|]. split; [|intros H; contradiction H; reflexivity].
    intros _. rewrite !lookup_insert_eq. repeat split; reflexivity.
Qed.

Lemma ShortenURL_succeeds_iff_free_witness :
  exists g r w,
    generateShortCode (fun _ => 0) = Some g /\
    run (ShortenURL (fun _ => 0) example_request) NewURLServer = Some (r, w) /\
    calls w = [] /\
    (ShortenResponse.Error r = "" <->
     urls NewURLServer !! chosen g example_request = None) /\
    (ShortenResponse.Error r = "" ->
     ShortenResponse.ShortCode r = chosen g example_request /\
     ShortenResponse.OriginalUrl r = ShortenRequest.OriginalUrl example_request /\
     urls (srv w) !! chosen g example_request =
       Some (ShortenRequest.OriginalUrl example_request) /\
     stats (srv w) !! chosen g example_request = Some 0 /\
     createdAt (srv w) !! chosen g example_request = Some 0) /\
    (ShortenResponse.Error r <> "" -> w = boot NewURLServer).
Proof.
  refine (ShortenURL_succeeds_iff_free (fun _ => 0) example_request NewURLServer _).
  intros i _. vm_compute. discriminate.
Defined.

(** [ShortenURL] changes the entries of one code only, the one it returns:
    every other code keeps its URL, its counter and its creation time. *)
Theorem ShortenURL_touches_one_code (clk : nat -> Z) (req : ShortenRequest.t)
    (s : urlServer) (r : ShortenResponse.t) (w : world) (c' : string) :
  run (ShortenURL clk req) s = Some (r, w) ->
  c' <> ShortenResponse.ShortCode r ->
  urls (srv w) !! c' = urls s !! c' /\
  stats (srv w) !! c' = stats s !! c' /\
  createdAt (srv w) !! c' = createdAt s !! c'.
Proof.
  rewrite ShortenURL_run.
  destruct (generateShortCode clk) as [g|]; [|discriminate]. cbn zeta.
  destruct (urls s !! chosen g req); intros [= <- <-]; cbn [srv boot].
  - auto.
  - cbn [ShortenResponse.ShortCode created urls stats createdAt]. intros Hne.
    rewrite !lookup_insert_ne by congruence. auto.
Qed.

Lemma ShortenURL_touches_one_code_witness :
  urls (created NewURLServer "aaaaaa" "https://example.com" 0) !! "promo" =
    urls NewURLServer !! "promo" /\
  stats (created NewURLServer "aaaaaa" "https://example.com" 0) !! "promo" =
    stats NewURLServer !! "promo" /\
  createdAt (created NewURLServer "aaaaaa" "https://example.com" 0) !! "promo" =
    createdAt NewURLServer !! "promo".
Proof.
  refine (ShortenURL_touches_one_code (fun _ => 0) example_request NewURLServer
            {| ShortenResponse.ShortCode := "aaaaaa";
               ShortenResponse.OriginalUrl := "https://example.com";
               ShortenResponse.Error := "" |}
            {| srv := created NewURLServer "aaaaaa" "https://example.com" 0;
               calls := [];
               spawned :=
                 [GoSaveURL {| storage_service.SaveURLRequest.ShortCode := "aaaaaa";
                               storage_service.SaveURLRequest.OriginalUrl :=
                                 "https://example.com" |};
                  GoCacheSet {| cache_service.SetRequest.Key := "aaaaaa";
                                cache_service.SetRequest.Value := "https://example.com";
                                cache_service.SetRequest.TtlSeconds := 360 |}] |}
            "promo" eq_refl _).
  discriminate.
Defined.

(** ** Resolution *)

(** [GetOriginalURL] changes the entries of the requested code only. *)
Theorem GetOriginalURL_touches_one_code (env : clients) (now : Z) (c : string)
    (s : urlServer) (r : GetOriginalResponse.t) (w : world) (c' : string) :
  run (GetOriginalURL env now c) s = Some (r, w) ->
  c' <> c ->
  urls (srv w) !! c' = urls s !! c' /\
  stats (srv w) !! c' = stats s !! c' /\
  createdAt (srv w) !! c' = createdAt s !! c'.
Proof.
  rewrite GetOriginalURL_run. intros Hrun Hne.
  assert (Hclick : forall s0 : urlServer,
             urls (clicked s0 c) !! c' = urls s0 !! c' /\
             stats (clicked s0 c) !! c' = stats s0 !! c' /\
             createdAt (clicked s0 c) !! c' = createdAt s0 !! c').
  { intros s0. cbn [clicked urls stats createdAt].
    rewrite lookup_insert_ne by congruence. auto. }
  destruct (cache_hit (cacheGet env c)) as [v|].
  { injection Hrun as _ <-. apply Hclick. }
  destruct (urls s !! c) as [u|].
  { injection Hrun as _ <-. apply Hclick. }
  destruct (storage_hit (storageGetURL env c)) as [u|];
    injection Hrun as _ <-; cbn [srv]; [|auto].
  destruct (Hclick (created s c u now)) as (-> & -> & ->).
  cbn [created urls stats createdAt].
  rewrite !lookup_insert_ne by congruence. auto.
Qed.

Lemma GetOriginalURL_touches_one_code_witness :
  urls (clicked NewURLServer "abc123") !! "promo" = urls NewURLServer !! "promo" /\
  stats (clicked NewURLServer "abc123") !! "promo" = stats NewURLServer !! "promo" /\
  createdAt (clicked NewURLServer "abc123") !! "promo" =
    createdAt NewURLServer !! "promo".
Proof.
  refine (GetOriginalURL_touches_one_code (cache_answers "https://x.com") 0 "abc123"
            NewURLServer (found_url "https://x.com")
            {| srv := clicked NewURLServer "abc123";
               calls := [CacheGet "abc123"];
               spawned := [GoIncrementClick "abc123"] |} "promo" eq_refl _).
  discriminate.
Defined.

(** Records are immutable, up to the unguarded write of the durable branch:
    no atomic transition of the engine other than that write for the same
    code changes the URL or the creation time of a code that has a local URL
    record; in particular a [ShortenURL] never does, under any
    interleaving. *)
Theorem records_are_immutable (op : operation) (s s' : urlServer)
    (c u : string) :
  urls s !! c = Some u ->
  ~ reloads op c ->
  perform op s = Some s' ->
  urls s' !! c = Some u /\ createdAt s' !! c = createdAt s !! c.
Proof.
  intros Hc Hop.
  destruct op as [clk req|env now c0 p|RFC3339 env c0|c0]; cbn [perform].
  - rewrite ShortenURL_run.
    destruct (generateShortCode clk) as [g|]; [|discriminate]. cbn zeta.
    destruct (urls s !! chosen g req) eqn:Hfree; intros [= <-]; cbn [srv boot snd].
    + auto.
    + assert (chosen g req <> c) by congruence.
      cbn [created urls createdAt]. rewrite !lookup_insert_ne by assumption. auto.
  - intros [= <-]. rewrite lookup_step_state.
    destruct p as [| | |u0|r|r]; auto.
    cbn [reloads] in Hop. cbn [created urls createdAt].
    rewrite !lookup_insert_ne by assumption. auto.
  - destruct (run (GetURLStats RFC3339 env c0) s) as [[r w]|] eqn:Hrun; [|discriminate].
    intros [= <-]. cbn [snd]. rewrite (GetURLStats_state _ _ _ _ _ _ Hrun). auto.
  - unfold run. rewrite incrementStats_run. intros [= <-]. auto.
Qed.

Lemma records_are_immutable_witness :
  urls (created (created NewURLServer "promo" "https://new.example" 5)
          "aaaaaa" "https://example.com" 0) !! "promo" =
    Some "https://new.example" /\
  createdAt (created (created NewURLServer "promo" "https://new.example" 5)
               "aaaaaa" "https://example.com" 0) !! "promo" =
    createdAt (created NewURLServer "promo" "https://new.example" 5) !! "promo".
Proof.
  exact (records_are_immutable
           (OpShortenURL (fun _ => 0) example_request)
           (created NewURLServer "promo" "https://new.example" 5)
           (created (created NewURLServer "promo" "https://new.example" 5)
              "aaaaaa" "https://example.com" 0)
           "promo" "https://new.example" eq_refl (fun H => H) eq_refl).
Defined.

Lemma clicked_counter_next (s : urlServer) (c : string) :
  min_int64 <= counter s c < max_int64 ->
  counter (clicked s c) c = counter s c + 1.
Proof.
  intros Hrange. rewrite counter_clicked.
  destruct (decide (c = c)); [|contradiction]. apply wrap64_in_range. lia.
Qed.

Lemma resolve_recorded_state (env : clients) (now : Z) (c : string)
    (s : urlServer) :
  is_Some (urls s !! c) ->
  exists r w,
    run (GetOriginalURL env now c) s = Some (r, w) /\
    GetOriginalResponse.Found r = true /\
    srv w = clicked s c.
Proof.
  intros [u Hu]. rewrite GetOriginalURL_run, Hu.
  destruct (cache_hit (cacheGet env c)) as [v|];
    do 2 eexists; (split; [reflexivity|]); split; reflexivity.
Qed.

(** A lookup of a code that has a local URL record is a hit, whatever the
    collaborators answer, and it adds exactly one to the local counter as
    long as the counter is below the largest [int64]. *)
Theorem hit_counts_once (env : clients) (now : Z) (c : string) (s : urlServer) :
  is_Some (urls s !! c) ->
  min_int64 <= counter s c < max_int64 ->
  exists r w,
    run (GetOriginalURL env now c) s = Some (r, w) /\
    GetOriginalResponse.Found r = true /\
    counter (srv w) c = counter s c + 1 /\
    urls (srv w) = urls s /\ createdAt (srv w) = createdAt s.
Proof.
  intros Hc Hrange.
  destruct (resolve_recorded_state env now c s Hc) as (r & w & Hrun & Hfound & Hsrv).
  exists r, w. split; [exact Hrun|]. split; [exact Hfound|].
  rewrite Hsrv. split; [apply clicked_counter_next, Hrange|].
  split; reflexivity.
Qed.

Lemma hit_counts_once_witness :
  exists r w,
    run (GetOriginalURL unreachable 0 "promo")
        (created NewURLServer "promo" "https://new.example" 0) = Some (r, w) /\
    GetOriginalResponse.Found r = true /\
    counter (srv w) "promo" =
      counter (created NewURLServer "promo" "https://new.example" 0) "promo" + 1 /\
    urls (srv w) = urls (created NewURLServer "promo" "https://new.example" 0) /\
    createdAt (srv w) =
      createdAt (created NewURLServer "promo" "https://new.example" 0).
Proof.
  refine (hit_counts_once unreachable 0 "promo"
            (created NewURLServer "promo" "https://new.example" 0) _ _).
  - vm_compute. eauto.
  - vm_compute. split; [discriminate|reflexivity].
Defined.

(** Lookups of one code that has a local URL record, performed one after the
    other with arbitrary answers of the collaborators, raise its local counter
    by exactly their number, as long as the counter stays within [int64]; the
    URL and the creation time stay as they are. *)
Theorem resolve_all_counts (c : string) (visits : list (clients * Z))
    (s : urlServer) :
  is_Some (urls s !! c) ->
  min_int64 <= counter s c ->
  counter s c + Z.of_nat (length visits) <= max_int64 ->
  counter (resolve_all c visits s) c = counter s c + Z.of_nat (length visits) /\
  urls (resolve_all c visits s) = urls s /\
  createdAt (resolve_all c visits s) = createdAt s.
Proof.
  revert s. induction visits as [|[env now] visits IH]; intros s Hc Hmin Hmax.
  - cbn. split; [lia|auto].
  - cbn [resolve_all length] in *.
    destruct (resolve_recorded_state env now c s Hc) as (r & w & -> & _ & ->).
    pose proof (clicked_counter_next s c ltac:(lia)) as Hnext.
    destruct (IH (clicked s c)) as (-> & -> & ->).
    + exact Hc.
    + lia.
    + lia.
    + split; [lia|]. split; reflexivity.
Qed.

Lemma resolve_all_counts_witness :
  counter (resolve_all "promo" [(unreachable, 1); (cache_answers "https://old.example", 2)]
             (created NewURLServer "promo" "https://new.example" 0)) "promo" =
    counter (created NewURLServer "promo" "https://new.example" 0) "promo" + 2 /\
  urls (resolve_all "promo" [(unreachable, 1); (cache_answers "https://old.example", 2)]
          (created NewURLServer "promo" "https://new.example" 0)) =
    urls (created NewURLServer "promo" "https://new.example" 0) /\
  createdAt (resolve_all "promo" [(unreachable, 1); (cache_answers "https://old.example", 2)]
               (created NewURLServer "promo" "https://new.example" 0)) =
    createdAt (created NewURLServer "promo" "https://new.example" 0).
Proof.
  refine (resolve_all_counts "promo"
            [(unreachable, 1); (cache_answers "https://old.example", 2)]
            (created NewURLServer "promo" "https://new.example" 0) _ _ _).
  - vm_compute. eauto.
  - vm_compute. discriminate.
  - vm_compute. discriminate.
Defined.


(** ** Statistics of a record *)

(** A record loaded from the durable store hides the durable statistics:
    after the lookup that loaded it, [GetURLStats] answers from local state,
    without an outbound call, with a click count of 1 and the time of the
    load as creation time, whatever the durable store holds for the code. *)
Theorem loaded_record_shadows_durable_stats (RFC3339 : Z -> string)
    (env env' : clients) (now : Z) (c u : string) (s : urlServer) :
  cache_hit (cacheGet env c) = None ->
  urls s !! c = None ->
  storage_hit (storageGetURL env c) = Some u ->
  exists w,
    run (GetOriginalURL env now c) s = Some (found_url u, w) /\
    run (GetURLStats RFC3339 env' c) (srv w) =
      Some ({| StatsResponse.ShortCode := c;
               StatsResponse.ClickCount := 1;
               StatsResponse.CreatedAt := RFC3339 now;
               StatsResponse.Error := "" |}, boot (srv w)).
Proof.
  intros Hcache Hlocal Hdurable.
  rewrite GetOriginalURL_run, Hcache, Hlocal, Hdurable.
  eexists. split; [reflexivity|]. cbn [srv].
  rewrite GetURLStats_run. cbn [clicked stats createdAt].
  rewrite lookup_insert_eq. unfold counter.
  cbn [created stats createdAt]. rewrite !lookup_insert_eq. reflexivity.
Qed.

Lemma loaded_record_shadows_durable_stats_witness :
  exists w,
    run (GetOriginalURL (durable_only reference_layout one_row_database) 3 "abc123")
        NewURLServer = Some (found_url "https://x.com", w) /\
    run (GetURLStats reference_layout
           (durable_only reference_layout one_row_database) "abc123") (srv w) =
      Some ({| StatsResponse.ShortCode := "abc123";
               StatsResponse.ClickCount := 1;
               StatsResponse.CreatedAt := reference_layout 3;
               StatsResponse.Error := "" |}, boot (srv w)).
Proof.
  exact (loaded_record_shadows_durable_stats reference_layout
           (durable_only reference_layout one_row_database)
           (durable_only reference_layout one_row_database)
           3 "abc123" "https://x.com" NewURLServer eq_refl eq_refl eq_refl).
Defined.

Lemma resolve_all_stats_entry (c : string) (visits : list (clients * Z))
    (s : urlServer) (k : Z) :
  is_Some (urls s !! c) ->
  stats s !! c = Some k ->
  min_int64 <= k ->
  k + Z.of_nat (length visits) <= max_int64 ->
  stats (resolve_all c visits s) !! c = Some (k + Z.of_nat (length visits)) /\
  createdAt (resolve_all c visits s) !! c = createdAt s !! c.
Proof.
  revert s k. induction visits as [|[env now] visits IH]; intros s k Hc Hk Hmin Hmax.
  - cbn. rewrite Hk. split; [f_equal; lia|reflexivity].
  - cbn [resolve_all length] in *.
    destruct (resolve_recorded_state env now c s Hc) as (r & w & -> & _ & ->).
    destruct (IH (clicked s c) (k + 1)) as (-> & ->).
    + exact Hc.
    + cbn [clicked stats]. rewrite lookup_insert_eq. unfold counter. rewrite Hk.
      f_equal. apply wrap64_in_range. cbn. lia.
    + lia.
    + lia.
    + split; [f_equal; lia|reflexivity].
Qed.

(** After a successful [ShortenURL], and any number of lookups of the
    returned code (within [int64]), [GetURLStats] reports that number as the
    click count and the insertion time as the creation time, and issues no
    outbound call. *)
Theorem stats_count_resolves (RFC3339 : Z -> string) (clk : nat -> Z)
    (req : ShortenRequest.t) (s : urlServer) (resp : ShortenResponse.t)
    (w : world) (visits : list (clients * Z)) (env : clients) :
  run (ShortenURL clk req) s = Some (resp, w) ->
  ShortenResponse.Error resp = "" ->
  Z.of_nat (length visits) <= max_int64 ->
  run (GetURLStats RFC3339 env (ShortenResponse.ShortCode resp))
      (resolve_all (ShortenResponse.ShortCode resp) visits (srv w)) =
    Some ({| StatsResponse.ShortCode := ShortenResponse.ShortCode resp;
             StatsResponse.ClickCount := Z.of_nat (length visits);
             StatsResponse.CreatedAt := RFC3339 (clk 6%nat);
             StatsResponse.Error := "" |},
          boot (resolve_all (ShortenResponse.ShortCode resp) visits (srv w))).
Proof.
  intros Hrun Hok Hlen. rewrite ShortenURL_run in Hrun.
  destruct (generateShortCode clk) as [g|]; [|discriminate]. cbn zeta in Hrun.
  destruct (urls s !! chosen g req) eqn:Hfree.
  { injection Hrun as <- _. discriminate. }
  injection Hrun as <- <-. cbn [ShortenResponse.ShortCode srv].
  set (c := chosen g req).
  set (s1 := created s c (ShortenRequest.OriginalUrl req) (clk 6%nat)).
  destruct (resolve_all_stats_entry c visits s1 0) as (Hstats & Htime).
  { unfold s1. cbn [created urls]. rewrite lookup_insert_eq. eauto. }
  { unfold s1. cbn [created stats]. apply lookup_insert_eq. }
  { unfold min_int64. change (2 ^ 63) with 9223372036854775808. lia. }
  { lia. }
  rewrite GetURLStats_run, Hstats, Htime.
  unfold s1 at 1. cbn [created createdAt]. rewrite lookup_insert_eq. reflexivity.
Qed.

Lemma stats_count_resolves_witness :
  run (GetURLStats reference_layout unreachable "aaaaaa")
      (resolve_all "aaaaaa" [(unreachable, 1); (unreachable, 2)]
         (created NewURLServer "aaaaaa" "https://example.com" 0)) =
    Some ({| StatsResponse.ShortCode := "aaaaaa";
             StatsResponse.ClickCount := 2;
             StatsResponse.CreatedAt := reference_layout 0;
             StatsResponse.Error := "" |},
          boot (resolve_all "aaaaaa" [(unreachable, 1); (unreachable, 2)]
                  (created NewURLServer "aaaaaa" "https://example.com" 0))).
Proof.
  refine (stats_count_resolves reference_layout (fun _ => 0) example_request
            NewURLServer
            {| ShortenResponse.ShortCode := "aaaaaa";
               ShortenResponse.OriginalUrl := "https://example.com";
               ShortenResponse.Error := "" |}
            {| srv := created NewURLServer "aaaaaa" "https://example.com" 0;
               calls := [];
               spawned :=
                 [GoSaveURL {| storage_service.SaveURLRequest.ShortCode := "aaaaaa";
                               storage_service.SaveURLRequest.OriginalUrl :=
                                 "https://example.com" |};
                  GoCacheSet {| cache_service.SetRequest.Key := "aaaaaa";
                                cache_service.SetRequest.Value := "https://example.com";
                                cache_service.SetRequest.TtlSeconds := 360 |}] |}
            [(unreachable, 1); (unreachable, 2)] unreachable eq_refl eq_refl _).
  vm_compute. discriminate.
Defined.

(** * Properties of the storage service *)

(** ** Reads after writes *)



(** [SaveURL] is an upsert: for a code that already has a row, a statement
    the database accepts replaces the URL, the conflict on the code being no
    error, and the statistics of the row, its click count and its creation
    time, stay as they were. *)
Theorem SaveURL_overwrite_keeps_statistics (RFC3339 : Z -> string) (d : Z)
    (rej : storageServer.relation -> storage_service.SaveURLRequest.t -> Z -> option string)
    (st : storageServer.relation) (req : storage_service.SaveURLRequest.t)
    (now : Z) (old : storageServer.row) :
  storageServer.failure (storageServer.base st) = None ->
  rej st req now = None ->
  storageServer.table (storageServer.base st)
    !! storage_service.SaveURLRequest.ShortCode req = Some old ->
  let out := storageServer.SaveURL d rej st req now in
  storage_service.SaveURLResponse.Success out.1 = true /\
  storageServer.table (storageServer.base out.2)
    !! storage_service.SaveURLRequest.ShortCode req =
    Some {| storageServer.original_url :=
              storage_service.SaveURLRequest.OriginalUrl req;
            storageServer.click_count := storageServer.click_count old;
            storageServer.created_at := storageServer.created_at old |} /\
  storageServer.GetStats RFC3339 (storageServer.base out.2)
                         (storage_service.SaveURLRequest.ShortCode req) =
    storageServer.GetStats RFC3339 (storageServer.base st)
                           (storage_service.SaveURLRequest.ShortCode req) /\
  storageServer.updated_at out.2
    !! storage_service.SaveURLRequest.ShortCode req = Some now.
Proof.
  intros Hok Hacc Hold. unfold storageServer.SaveURL. rewrite Hok, Hacc, Hold.
  cbn zeta. cbn [fst snd storageServer.base storageServer.table
                 storageServer.updated_at].
  split; [reflexivity|]. rewrite !lookup_insert_eq. split; [reflexivity|].
  split; [|reflexivity].
  unfold storageServer.GetStats, storageServer.QueryRow.
  cbn [storageServer.failure storageServer.table].
  rewrite Hok, Hold, lookup_insert_eq. reflexivity.
Qed.

Lemma SaveURL_overwrite_keeps_statistics_witness :
  let req := {| storage_service.SaveURLRequest.ShortCode := "abc123";
                storage_service.SaveURLRequest.OriginalUrl := "https://new.example" |} in
  let st := {| storageServer.base := one_row_database;
               storageServer.updated_at := ∅ |} in
  let out := storageServer.SaveURL 0 refuses_empty_code st req 9 in
  storage_service.SaveURLResponse.Success out.1 = true /\
  storageServer.table (storageServer.base out.2)
    !! storage_service.SaveURLRequest.ShortCode req =
    Some {| storageServer.original_url := "https://new.example";
            storageServer.click_count := 41;
            storageServer.created_at := 1700000000000000000 |} /\
  storageServer.GetStats reference_layout (storageServer.base out.2)
                         (storage_service.SaveURLRequest.ShortCode req) =
    storageServer.GetStats reference_layout (storageServer.base st)
                           (storage_service.SaveURLRequest.ShortCode req) /\
  storageServer.updated_at out.2
    !! storage_service.SaveURLRequest.ShortCode req = Some 9.
Proof.
  exact (SaveURL_overwrite_keeps_statistics reference_layout 0 refuses_empty_code
           {| storageServer.base := one_row_database;
              storageServer.updated_at := ∅ |}
           {| storage_service.SaveURLRequest.ShortCode := "abc123";
              storage_service.SaveURLRequest.OriginalUrl := "https://new.example" |}
           9
           {| storageServer.original_url := "https://x.com";
              storageServer.click_count := 41;
              storageServer.created_at := 1700000000000000000 |}
           eq_refl eq_refl eq_refl).
Defined.

(** ** Click counts in the durable store *)

(** [IncrementClick] for a code without a row reports "URL not found" and
    changes nothing. *)
Lemma IncrementClick_missing_row (m : Z) (o : string)
    (st : storageServer.relation) (c : string) (now : Z) :
  storageServer.failure (storageServer.base st) = None ->
  storageServer.table (storageServer.base st) !! c = None ->
  storageServer.IncrementClick m o st c now =
    ({| storage_service.IncrementClickResponse.Success := false;
        storage_service.IncrementClickResponse.Error := "URL not found" |}, st).
Proof.
  intros Hok Hnone. unfold storageServer.IncrementClick.
  rewrite Hok, Hnone. reflexivity.
Qed.

(** [IncrementClick] for a code with a row, whose count is below the largest
    value of the column, succeeds; the [GetStats] that follows reports one
    click more and the same creation time, and no URL has changed. *)
Theorem IncrementClick_then_GetStats (RFC3339 : Z -> string) (m : Z) (o : string)
    (st : storageServer.relation) (c : string) (now : Z)
    (r : storageServer.row) :
  storageServer.failure (storageServer.base st) = None ->
  storageServer.table (storageServer.base st) !! c = Some r ->
  storageServer.click_count r < m ->
  let out := storageServer.IncrementClick m o st c now in
  storage_service.IncrementClickResponse.Success out.1 = true /\
  storageServer.GetStats RFC3339 (storageServer.base out.2) c =
    {| storage_service.GetStatsResponse.ShortCode := c;
       storage_service.GetStatsResponse.ClickCount := storageServer.click_count r + 1;
       storage_service.GetStatsResponse.CreatedAt :=
         RFC3339 (storageServer.created_at r);
       storage_service.GetStatsResponse.Error := "" |} /\
  forall c' : string,
    storageServer.GetURL (storageServer.base out.2) c' =
      storageServer.GetURL (storageServer.base st) c'.
Proof.
  intros Hok Hrow Hlt. unfold storageServer.IncrementClick.
  rewrite Hok, Hrow, (proj2 (Z.ltb_lt _ _) Hlt). cbn zeta. cbn [fst snd].
  split; [reflexivity|].
  unfold storageServer.GetStats, storageServer.GetURL, storageServer.QueryRow.
  cbn [storageServer.base storageServer.failure storageServer.table].
  rewrite Hok, lookup_insert_eq. split; [reflexivity|].
  intros c'. rewrite lookup_insert.
  destruct (decide (c = c')) as [<-|]; [rewrite Hrow|]; reflexivity.
Qed.

Lemma IncrementClick_then_GetStats_witness :
  storage_service.IncrementClickResponse.Success
    (storageServer.IncrementClick max_int64 "out of range"
       {| storageServer.base := one_row_database; storageServer.updated_at := ∅ |}
       "abc123" 9).1 = true /\
  storageServer.GetStats reference_layout
    (storageServer.base
       (storageServer.IncrementClick max_int64 "out of range"
          {| storageServer.base := one_row_database; storageServer.updated_at := ∅ |}
          "abc123" 9).2) "abc123" =
    {| storage_service.GetStatsResponse.ShortCode := "abc123";
       storage_service.GetStatsResponse.ClickCount := 41 + 1;
       storage_service.GetStatsResponse.CreatedAt :=
         reference_layout 1700000000000000000;
       storage_service.GetStatsResponse.Error := "" |} /\
  forall c' : string,
    storageServer.GetURL
      (storageServer.base
         (storageServer.IncrementClick max_int64 "out of range"
            {| storageServer.base := one_row_database; storageServer.updated_at := ∅ |}
            "abc123" 9).2) c' =
      storageServer.GetURL one_row_database c'.
Proof.
  refine (IncrementClick_then_GetStats reference_layout max_int64 "out of range"
            {| storageServer.base := one_row_database;
               storageServer.updated_at := ∅ |} "abc123" 9
            {| storageServer.original_url := "https://x.com";
               storageServer.click_count := 41;
               storageServer.created_at := 1700000000000000000 |}
            eq_refl eq_refl _).
  vm_compute. reflexivity.
Defined.

(** ** A failing connection *)

(** When the connection to the database fails, no handler changes the stored
    data, and each one carries the error text in its response: the writes
    report no success, [GetURL] reports not found, [GetStats] reports the
    error. *)
Theorem failing_connection_changes_nothing (RFC3339 : Z -> string) (d m : Z)
    (o : string)
    (rej : storageServer.relation -> storage_service.SaveURLRequest.t -> Z -> option string)
    (st : storageServer.relation) (msg : string)
    (req : storage_service.SaveURLRequest.t) (c : string) (now : Z) :
  storageServer.failure (storageServer.base st) = Some msg ->
  storageServer.SaveURL d rej st req now =
    ({| storage_service.SaveURLResponse.Success := false;
        storage_service.SaveURLResponse.Error := msg |}, st) /\
  storageServer.IncrementClick m o st c now =
    ({| storage_service.IncrementClickResponse.Success := false;
        storage_service.IncrementClickResponse.Error := msg |}, st) /\
  storageServer.GetURL (storageServer.base st) c =
    {| storage_service.GetURLResponse.OriginalUrl := "";
       storage_service.GetURLResponse.Found := false;
       storage_service.GetURLResponse.Error := msg |} /\
  storage_service.GetStatsResponse.Error
    (storageServer.GetStats RFC3339 (storageServer.base st) c) = msg.
Proof.
  intros Hfail.
  unfold storageServer.SaveURL, storageServer.IncrementClick,
    storageServer.GetURL, storageServer.GetStats, storageServer.QueryRow.
  rewrite Hfail. repeat split; reflexivity.
Qed.

Lemma failing_connection_changes_nothing_witness :
  storageServer.SaveURL 0 refuses_empty_code
    {| storageServer.base :=
         {| storageServer.table := ∅; storageServer.failure := Some "connection refused" |};
       storageServer.updated_at := ∅ |}
    {| storage_service.SaveURLRequest.ShortCode := "promo";
       storage_service.SaveURLRequest.OriginalUrl := "https://new.example" |} 9 =
    ({| storage_service.SaveURLResponse.Success := false;
        storage_service.SaveURLResponse.Error := "connection refused" |},
     {| storageServer.base :=
          {| storageServer.table := ∅; storageServer.failure := Some "connection refused" |};
        storageServer.updated_at := ∅ |}) /\
  storageServer.IncrementClick max_int64 "out of range"
    {| storageServer.base :=
         {| storageServer.table := ∅; storageServer.failure := Some "connection refused" |};
       storageServer.updated_at := ∅ |} "promo" 9 =
    ({| storage_service.IncrementClickResponse.Success := false;
        storage_service.IncrementClickResponse.Error := "connection refused" |},
     {| storageServer.base :=
          {| storageServer.table := ∅; storageServer.failure := Some "connection refused" |};
        storageServer.updated_at := ∅ |}) /\
  storageServer.GetURL
    {| storageServer.table := ∅; storageServer.failure := Some "connection refused" |}
    "promo" =
    {| storage_service.GetURLResponse.OriginalUrl := "";
       storage_service.GetURLResponse.Found := false;
       storage_service.GetURLResponse.Error := "connection refused" |} /\
  storage_service.GetStatsResponse.Error
    (storageServer.GetStats reference_layout
       {| storageServer.table := ∅; storageServer.failure := Some "connection refused" |}
       "promo") = "connection refused".
Proof.
  exact (failing_connection_changes_nothing reference_layout 0 max_int64
           "out of range" refuses_empty_code
           {| storageServer.base :=
                {| storageServer.table := ∅;
                   storageServer.failure := Some "connection refused" |};
              storageServer.updated_at := ∅ |}
           "connection refused"
           {| storage_service.SaveURLRequest.ShortCode := "promo";
              storage_service.SaveURLRequest.OriginalUrl := "https://new.example" |}
           "promo" 9 eq_refl).
Defined.

(** * The two services together *)

Lemma deliver_all_created (d m : Z) (o : string)
    (rej : storageServer.relation -> storage_service.SaveURLRequest.t -> Z -> option string)
    (t : Z) (st : storageServer.relation) (c u : string) :
  deliver_all d m o rej t st
    [GoSaveURL {| storage_service.SaveURLRequest.ShortCode := c;
                  storage_service.SaveURLRequest.OriginalUrl := u |};
     GoCacheSet {| cache_service.SetRequest.Key := c;
                   cache_service.SetRequest.Value := u;
                   cache_service.SetRequest.TtlSeconds := 360 |}] =
  (storageServer.SaveURL d rej st
     {| storage_service.SaveURLRequest.ShortCode := c;
        storage_service.SaveURLRequest.OriginalUrl := u |} t).2.
Proof. reflexivity. Qed.



(** Uniqueness of a code is checked against local state only: a server that
    has no local record for an alias accepts it even though the durable store
    already has a row for it, and once the save reaches a working store that
    accepts the statement, the row carries the new URL, with the click count
    and the creation time of the old one. *)
Theorem alias_reuse_overwrites_durable_record (d m : Z) (o : string)
    (rej : storageServer.relation -> storage_service.SaveURLRequest.t -> Z -> option string)
    (t : Z) (clk : nat -> Z) (a u : string) (s : urlServer)
    (st : storageServer.relation) (old : storageServer.row) :
  a <> "" ->
  after_epoch clk ->
  urls s !! a = None ->
  storageServer.failure (storageServer.base st) = None ->
  rej st {| storage_service.SaveURLRequest.ShortCode := a;
            storage_service.SaveURLRequest.OriginalUrl := u |} t = None ->
  storageServer.table (storageServer.base st) !! a = Some old ->
  exists w,
    run (ShortenURL clk {| ShortenRequest.OriginalUrl := u;
                           ShortenRequest.CustomAlias := a |}) s =
      Some ({| ShortenResponse.ShortCode := a;
               ShortenResponse.OriginalUrl := u;
               ShortenResponse.Error := "" |}, w) /\
    calls w = [] /\
    storageServer.table
      (storageServer.base (deliver_all d m o rej t st (spawned w))) !! a =
      Some {| storageServer.original_url := u;
              storageServer.click_count := storageServer.click_count old;
              storageServer.created_at := storageServer.created_at old |}.
Proof.
  intros Ha Hclk Hfree Hhealthy Hacc Hold.
  destruct (generateShortCode_total clk Hclk) as [g Hg].
  rewrite ShortenURL_run, Hg. unfold chosen.
  cbn [ShortenRequest.CustomAlias ShortenRequest.OriginalUrl].
  destruct (decide (a = "")) as [|_]; [contradiction|]. cbn zeta.
  rewrite Hfree. eexists. split; [reflexivity|]. split; [reflexivity|].
  cbn [spawned]. rewrite deliver_all_created.
  unfold storageServer.SaveURL. rewrite Hhealthy, Hacc. cbn zeta.
  cbn [snd storageServer.base storageServer.table
       storage_service.SaveURLRequest.ShortCode
       storage_service.SaveURLRequest.OriginalUrl].
  rewrite Hold. apply lookup_insert_eq.
Qed.

Lemma alias_reuse_overwrites_durable_record_witness :
  exists w,
    run (ShortenURL (fun _ => 0)
           {| ShortenRequest.OriginalUrl := "https://new.example";
              ShortenRequest.CustomAlias := "abc123" |}) NewURLServer =
      Some ({| ShortenResponse.ShortCode := "abc123";
               ShortenResponse.OriginalUrl := "https://new.example";
               ShortenResponse.Error := "" |}, w) /\
    calls w = [] /\
    storageServer.table
      (storageServer.base
         (deliver_all 0 max_int64 "out of range" refuses_empty_code 9
            {| storageServer.base := one_row_database; storageServer.updated_at := ∅ |}
            (spawned w))) !! "abc123" =
      Some {| storageServer.original_url := "https://new.example";
              storageServer.click_count := 41;
              storageServer.created_at := 1700000000000000000 |}.
Proof.
  refine (alias_reuse_overwrites_durable_record 0 max_int64 "out of range"
            refuses_empty_code 9
            (fun _ => 0) "abc123" "https://new.example" NewURLServer
            {| storageServer.base := one_row_database;
               storageServer.updated_at := ∅ |}
            {| storageServer.original_url := "https://x.com";
               storageServer.click_count := 41;
               storageServer.created_at := 1700000000000000000 |}
            _ _ eq_refl eq_refl eq_refl eq_refl).
  - discriminate.
  - intros i _. vm_compute. discriminate.
Defined.

(** Every hit is reported to the durable store: when the goroutines of a
    lookup that found the code reach a working store, the click count of the
    row goes up by one if the row exists and has room, and nothing is stored
    if the store has no row for the code: that click is lost. *)
Theorem hit_reaches_durable_count (d m : Z) (o : string)
    (rej : storageServer.relation -> storage_service.SaveURLRequest.t -> Z -> option string)
    (t : Z) (env : clients) (now : Z) (c : string) (s : urlServer)
    (r : GetOriginalResponse.t) (w : world) (st : storageServer.relation) :
  run (GetOriginalURL env now c) s = Some (r, w) ->
  GetOriginalResponse.Found r = true ->
  storageServer.failure (storageServer.base st) = None ->
  (forall row : storageServer.row,
      storageServer.table (storageServer.base st) !! c = Some row ->
      storageServer.click_count row < m ->
      storageServer.table
        (storageServer.base (deliver_all d m o rej t st (spawned w))) !! c =
        Some {| storageServer.original_url := storageServer.original_url row;
                storageServer.click_count := storageServer.click_count row + 1;
                storageServer.created_at := storageServer.created_at row |}) /\
  (storageServer.table (storageServer.base st) !! c = None ->
   deliver_all d m o rej t st (spawned w) = st).
Proof.
  intros Hrun Hfound Hhealthy.
  assert (Hspawn : deliver_all d m o rej t st (spawned w) =
                   (storageServer.IncrementClick m o st c t).2).
  { rewrite GetOriginalURL_run in Hrun.
    destruct (cache_hit (cacheGet env c)); [injection Hrun as _ <-; reflexivity|].
    destruct (urls s !! c); [injection Hrun as _ <-; reflexivity|].
    destruct (storage_hit (storageGetURL env c));
      injection Hrun as <- <-; [reflexivity|discriminate]. }
  rewrite Hspawn. split.
  - intros row Hrow Hlt. unfold storageServer.IncrementClick.
    rewrite Hhealthy, Hrow, (proj2 (Z.ltb_lt _ _) Hlt).
    cbn [snd storageServer.base storageServer.table].
    apply lookup_insert_eq.
  - intros Hnone. unfold storageServer.IncrementClick.
    rewrite Hhealthy, Hnone. reflexivity.
Qed.

Lemma hit_reaches_durable_count_witness :
  (forall row : storageServer.row,
      storageServer.table one_row_database !! "abc123" = Some row ->
      storageServer.click_count row < max_int64 ->
      storageServer.table
        (storageServer.base
           (deliver_all 0 max_int64 "out of range" refuses_empty_code 9
              {| storageServer.base := one_row_database;
                 storageServer.updated_at := ∅ |}
              [GoIncrementClick "abc123"])) !! "abc123" =
        Some {| storageServer.original_url := storageServer.original_url row;
                storageServer.click_count := storageServer.click_count row + 1;
                storageServer.created_at := storageServer.created_at row |}) /\
  (storageServer.table one_row_database !! "abc123" = None ->
   deliver_all 0 max_int64 "out of range" refuses_empty_code 9
     {| storageServer.base := one_row_database; storageServer.updated_at := ∅ |}
     [GoIncrementClick "abc123"] =
   {| storageServer.base := one_row_database; storageServer.updated_at := ∅ |}).
Proof.
  exact (hit_reaches_durable_count 0 max_int64 "out of range"
           refuses_empty_code 9
           (cache_answers "https://x.com") 0 "abc123" NewURLServer
           (found_url "https://x.com")
           {| srv := clicked NewURLServer "abc123";
              calls := [CacheGet "abc123"];
              spawned := [GoIncrementClick "abc123"] |}
           {| storageServer.base := one_row_database;
              storageServer.updated_at := ∅ |}
           eq_refl eq_refl eq_refl).
Defined.

(** * Start-up of the storage service *)

Lemma attempts_all_fail (probe : nat -> storageServer.attempt) (n : nat) :
  forall (i : nat) (err : option string) (slept : Z),
    (forall j : nat, (i <= j < i + n)%nat -> probe j <> storageServer.Connected) ->
    storageServer.attempts probe i n err slept =
      (match n with
       | O => err
       | S n' => storageServer.failure_of (probe (i + n')%nat)
       end, (i + n)%nat, slept + 2 * Z.of_nat n).
Proof.
  induction n as [|n IH]; intros i err slept Hfail.
  - cbn [storageServer.attempts]. replace (i + 0)%nat with i by lia.
    replace (slept + 2 * Z.of_nat 0) with slept by lia. reflexivity.
  - cbn [storageServer.attempts].
    assert (Hi : probe i <> storageServer.Connected) by (apply Hfail; lia).
    assert (Hrest : forall e : string,
               storageServer.attempts probe (S i) n (Some e) (slept + 2) =
               (match n with
                | O => Some e
                | S n' => storageServer.failure_of (probe (i + S n')%nat)
                end, (i + S n)%nat, slept + 2 * Z.of_nat (S n))).
    { intros e. rewrite IH by (intros j Hj; apply Hfail; lia).
      replace (S i + n)%nat with (i + S n)%nat by lia.
      replace (slept + 2 + 2 * Z.of_nat n) with (slept + 2 * Z.of_nat (S n)) by lia.
      destruct n as [|n']; [reflexivity|].
      replace (S i + n')%nat with (i + S n')%nat by lia. reflexivity. }
    destruct (probe i) as [e|e|] eqn:Hprobe; [| |contradiction].
    + rewrite Hrest. destruct n as [|n']; [|reflexivity].
      replace (i + 0)%nat with i by lia. rewrite Hprobe. reflexivity.
    + rewrite Hrest. destruct n as [|n']; [|reflexivity].
      replace (i + 0)%nat with i by lia. rewrite Hprobe. reflexivity.
Qed.

Lemma attempts_first_success (probe : nat -> storageServer.attempt) (k : nat) :
  forall (i n : nat) (err : option string) (slept : Z),
    (k < n)%nat ->
    (forall j : nat, (i <= j < i + k)%nat -> probe j <> storageServer.Connected) ->
    probe (i + k)%nat = storageServer.Connected ->
    storageServer.attempts probe i n err slept =
      (None, (i + k)%nat, slept + 2 * Z.of_nat k).
Proof.
  induction k as [|k IH]; intros i n err slept Hk Hfail Hok.
  - destruct n as [|n]; [lia|]. cbn [storageServer.attempts].
    replace (i + 0)%nat with i in * by lia. rewrite Hok.
    replace (slept + 2 * Z.of_nat 0) with slept by lia. reflexivity.
  - destruct n as [|n]; [lia|]. cbn [storageServer.attempts].
    assert (Hi : probe i <> storageServer.Connected) by (apply Hfail; lia).
    assert (Hrest : forall e : option string,
               storageServer.attempts probe (S i) n e (slept + 2) =
               (None, (i + S k)%nat, slept + 2 * Z.of_nat (S k))).
    { intros e. rewrite (IH (S i) n e (slept + 2)).
      - replace (S i + k)%nat with (i + S k)%nat by lia.
        replace (slept + 2 + 2 * Z.of_nat k) with (slept + 2 * Z.of_nat (S k)) by lia.
        reflexivity.
      - lia.
      - intros j Hj. apply Hfail. lia.
      - replace (S i + k)%nat with (i + S k)%nat by lia. exact Hok. }
    destruct (probe i) as [e|e|]; [apply Hrest|apply Hrest|contradiction].
Qed.

(** Start-up connects with the first of the ten attempts that succeeds,
    having slept two seconds after each failed one. *)
Theorem NewStorageServer_first_success (environ : gmap string string)
    (probe : string -> nat -> storageServer.attempt) (k : nat) :
  let dsn := storageServer.connStr (storageServer.getConfig environ) in
  (k < 10)%nat ->
  (forall j : nat, (j < k)%nat -> probe dsn j <> storageServer.Connected) ->
  probe dsn k = storageServer.Connected ->
  storageServer.NewStorageServer environ probe = (inr (dsn, k), 2 * Z.of_nat k).
Proof.
  intros dsn Hk Hfail Hok. unfold storageServer.NewStorageServer. fold dsn.
  rewrite (attempts_first_success (probe dsn) k 0 10 None 0); try assumption.
  - reflexivity.
  - intros j Hj. apply Hfail. lia.
Qed.

(** Start-up gives up after ten failed attempts and twenty seconds of
    sleep; the error it returns carries the error of the tenth attempt. *)
Theorem NewStorageServer_gives_up (environ : gmap string string)
    (probe : string -> nat -> storageServer.attempt) :
  let dsn := storageServer.connStr (storageServer.getConfig environ) in
  (forall j : nat, (j < 10)%nat -> probe dsn j <> storageServer.Connected) ->
  exists e : string,
    storageServer.failure_of (probe dsn 9%nat) = Some e /\
    storageServer.NewStorageServer environ probe =
      (inl ("failed to connect to PostgreSQL after retries: " +:+ e), 20).
Proof.
  intros dsn Hfail. unfold storageServer.NewStorageServer. fold dsn.
  rewrite (attempts_all_fail (probe dsn) 10 0 None 0)
    by (intros j Hj; apply Hfail; lia).
  cbn [Nat.add]. specialize (Hfail 9%nat ltac:(lia)).
  destruct (probe dsn 9%nat) as [e|e|]; [| |contradiction];
    exists e; split; reflexivity.
Qed.

Lemma NewStorageServer_first_success_witness :
  storageServer.NewStorageServer ∅
    (fun _ j => if (j <? 3)%nat then storageServer.PingFails "connection refused"
                else storageServer.Connected) =
    (inr (storageServer.connStr (storageServer.getConfig ∅), 3%nat), 2 * Z.of_nat 3).
Proof.
  refine (NewStorageServer_first_success ∅
            (fun _ j => if (j <? 3)%nat
                        then storageServer.PingFails "connection refused"
                        else storageServer.Connected) 3 _ _ eq_refl).
  - lia.
  - intros j Hj. destruct j as [|[|[|j]]]; [discriminate..|lia].
Defined.

Lemma NewStorageServer_gives_up_witness :
  exists e : string,
    storageServer.failure_of (storageServer.OpenFails "unknown driver") = Some e /\
    storageServer.NewStorageServer ∅
      (fun _ _ => storageServer.OpenFails "unknown driver") =
      (inl ("failed to connect to PostgreSQL after retries: " +:+ e), 20).
Proof.
  refine (NewStorageServer_gives_up ∅
            (fun _ _ => storageServer.OpenFails "unknown driver") _).
  intros j _. discriminate.
Defined.

(** A variable set to the empty string counts as not set: the default is
    used in both cases, and any other value is returned as it is. *)
Theorem getEnv_empty_is_unset (environ : gmap string string)
    (key defaultValue v : string) :
  storageServer.getEnv (<[key := ""]> environ) key defaultValue = defaultValue /\
  storageServer.getEnv (delete key environ) key defaultValue = defaultValue /\
  (v <> "" -> storageServer.getEnv (<[key := v]> environ) key defaultValue = v).
Proof.
  unfold storageServer.getEnv, storageServer.Getenv.
  rewrite !lookup_insert_eq, lookup_delete_eq. cbn.
  repeat split; try reflexivity. intros Hv.
  destruct (decide (v = "")); [contradiction|reflexivity].
Qed.

(** Without usable settings in the environment (each of the six variables
    unset or empty) the service connects with the built-in defaults. *)
Theorem default_connection_string (environ : gmap string string) :
  (forall key : string,
      key ∈ ["DB_HOST"; "DB_PORT"; "DB_USER"; "DB_PASSWORD"; "DB_NAME"; "DB_SSLMODE"] ->
      environ !! key = None \/ environ !! key = Some "") ->
  storageServer.connStr (storageServer.getConfig environ) =
    "host=postgres port=5432 user=postgres password=password dbname=urlshortener sslmode=disable".
Proof.
  intros Hunset.
  assert (Hdefault : forall key d : string,
             key ∈ ["DB_HOST"; "DB_PORT"; "DB_USER"; "DB_PASSWORD"; "DB_NAME"; "DB_SSLMODE"] ->
             storageServer.getEnv environ key d = d).
  { intros key d Hkey. unfold storageServer.getEnv, storageServer.Getenv.
    destruct (Hunset key Hkey) as [-> | ->]; reflexivity. }
  unfold storageServer.connStr, storageServer.getConfig.
  cbn [storageServer.Host storageServer.Port storageServer.User
       storageServer.Password storageServer.DBName storageServer.SSLMode].
  rewrite !Hdefault by (repeat constructor). reflexivity.
Qed.

Lemma default_connection_string_witness :
  storageServer.connStr (storageServer.getConfig {[ "DB_HOST" := "" ]}) =
    "host=postgres port=5432 user=postgres password=password dbname=urlshortener sslmode=disable".
Proof.
  refine (default_connection_string {[ "DB_HOST" := "" ]} _).
  intros key Hkey.
  repeat (apply elem_of_cons in Hkey as [->|Hkey];
          [vm_compute; auto|]).
  apply elem_of_nil in Hkey. contradiction.
Defined.
